(** * Binance tracker: the reconciliation and market-data core

    A shallow embedding of [core/api_client.py] (class [BinanceApiClient])
    and [core/calculator.py].

    Modelling conventions.
    - Python [float] values are exact rationals ([Q]); a division whose
      divisor is zero raises [ZeroDivisionError] as in Python.  The one
      exception is [calculate_pnl], whose guard against a zero divisor depends
      on rounding: it is modelled on binary64 floats ([PrimFloat]).
    - A [dict] keyed by symbol is a [gmap string _]; [symbol_mappings], whose
      [items()] order is observable, is an insertion-ordered association list.
    - The exchange (python-binance [Client]) is an oracle [Exchange]: every
      endpoint answers as a function of the number of requests issued so far,
      so that an endpoint may succeed on one call and fail on the next.
    - Methods run in a state-and-exception monad [M]: a raised exception keeps
      the mutations made before it, as in Python.
    - Recursive methods take the remaining interpreter stack [depth]; at depth
      zero they raise [RecursionError].
    - [print]/[logging] output and the rate-limit header bookkeeping of
      [_handle_api_response] influence no returned value and are left out.
    - [get_consolidated_order_history] writes its annotation keys into the
      order dictionaries it was handed, so the dictionaries kept in
      [manual_orders] gain those keys too; every read of those keys follows
      a fresh annotation, and the stored orders are left as they were. *)

From Stdlib Require Import QArith ZArith Lia Floats.
From stdpp Require Import base option list gmap strings fin_maps sorting.

Local Open Scope string_scope.

(** ** Exceptions and results *)

Inductive exn : Type :=
  | BinanceAPIException (code : Z)
  | ZeroDivisionError
  | RecursionError
  | OtherException (msg : string).

Inductive res (A : Type) : Type :=
  | Ok (a : A)
  | Raise (e : exn).
Arguments Ok {A} a.
Arguments Raise {A} e.

Definition INVALID_SYMBOL : Z := (-1121)%Z.
Definition RATE_LIMITED : Z := (-1015)%Z.
Definition IP_BANNED : Z := (-1010)%Z.

(** [str(e)] *)
Definition str_exn (e : exn) : string :=
  match e with
  | BinanceAPIException _ => "APIError"
  | ZeroDivisionError => "float division by zero"
  | RecursionError => "maximum recursion depth exceeded"
  | OtherException msg => msg
  end.

(** The [TypeError] of a call of the one-parameter [get_symbol_price] with
    two arguments. *)
Definition arity_error : exn :=
  OtherException
    "BinanceApiClient.get_symbol_price() takes 2 positional arguments but 3 were given".

(** ** Numbers *)

Definition Qltb (x y : Q) : bool := negb (Qle_bool y x).

(** ** Data model *)

(** An order dictionary, with the keys the core reads or writes.  Keys that
    the code tests with [in] or reads with [.get] are optional. *)
Record Order : Type := {
  orderId : Z;
  symbol : string;
  side : string;
  status : string;
  price : Q;
  origQty : Q;
  executedQty : Q;
  cummulativeQuoteQty : Q;
  avgPrice : Q;
  time : option string;
  isManual : option bool;
  commission : option Q;
  baseAsset : option string;
  quoteAsset : option string;
  originalSymbol : option string;
  normalizedPrice : option Q;
  normalizedTotal : option Q;
  baseCurrency : option string
}.

(** An order as the exchange reports it: [time] is epoch milliseconds. *)
Record RawOrder : Type := {
  raw_orderId : Z;
  raw_symbol : string;
  raw_side : string;
  raw_status : string;
  raw_price : Q;
  raw_origQty : Q;
  raw_executedQty : Q;
  raw_cummulativeQuoteQty : Q;
  raw_time : Z;
  raw_commission : option Q
}.

(** An open order after [get_open_orders] has added [lockedQty]. *)
Record OpenOrder : Type := {
  open_orderId : Z;
  open_side : string;
  open_price : Q;
  open_origQty : Q;
  open_executedQty : Q;
  open_lockedQty : Q;
  open_time : string
}.

Record RawBalance : Type := {
  raw_asset : string;
  raw_free : Q;
  raw_locked : Q
}.

(** One entry of the list [get_spot_balances] returns. *)
Record Balance : Type := {
  asset : string;
  free : Q;
  locked : Q;
  total : Q;
  usd_value : Q;
  preferred_pair : string
}.

(** The socket manager object, as far as [hasattr] and its methods are
    observed: which attributes exist and whether a method call raises. *)
Record SocketManager : Type := {
  has_connect : bool;
  has_start_socket : bool;
  has_symbol_ticker : bool;
  has_start_symbol_ticker_socket : bool;
  has_ticker : bool;
  has_stop_socket : bool;
  has_close : bool;
  has_disconnect : bool;
  connect_raises : option exn;
  subscribe_raises : option exn;
  stop_raises : option exn;
  close_raises : option exn;
  socket_key : string -> string
}.

(** The exchange and the rest of the environment. *)
Record Exchange : Type := {
  client_get_symbol_ticker : nat -> string -> res Q;
  client_get_all_tickers : nat -> res (list (string * Q));
  client_get_ticker_price : nat -> string -> res Q;
  client_get_ticker : nat -> string -> res Q;
  client_get_avg_price : nat -> string -> res Q;
  client_get_recent_trades : nat -> string -> res Q;
  client_get_klines : nat -> string -> res Q;
  client_get_all_orders : nat -> string -> option Z -> res (list RawOrder);
  client_get_open_orders : nat -> string -> res (list RawOrder);
  client_get_account : nat -> res (list RawBalance);
  random_source : nat -> Z;
  strftime_localtime : Z -> string;
  new_spot_websocket_client : res SocketManager;
  new_socket_manager : res SocketManager;
  spot_websocket_client_in_globals : bool
}.

(** The instance ([self]) together with the clock, the sleeps performed, the
    random draws consumed, and the callbacks invoked by polling loops. *)
Record State : Type := {
  ticker_cache : gmap string (Q * Q);
  manual_orders : gmap string (list Order);
  symbol_mappings : list (string * string);
  preferred_pairs : gmap string string;
  fee_maker : Q;
  fee_taker : Q;
  socket_manager : option SocketManager;
  socket_connections : gmap string string;
  price_callbacks : gmap string nat;
  ws_thread : bool;
  requests : nat;
  now : Q;
  slept : list Z;
  draws : nat;
  delivered : list (nat * string * Q)
}.

Definition with_ticker_cache (c : gmap string (Q * Q)) (st : State) : State :=
  {| ticker_cache := c; manual_orders := manual_orders st;
     symbol_mappings := symbol_mappings st; preferred_pairs := preferred_pairs st;
     fee_maker := fee_maker st; fee_taker := fee_taker st;
     socket_manager := socket_manager st;
     socket_connections := socket_connections st;
     price_callbacks := price_callbacks st; ws_thread := ws_thread st;
     requests := requests st; now := now st; slept := slept st;
     draws := draws st; delivered := delivered st |}.

Definition with_sockets (m : option SocketManager) (conns : gmap string string)
    (cbs : gmap string nat) (th : bool) (st : State) : State :=
  {| ticker_cache := ticker_cache st; manual_orders := manual_orders st;
     symbol_mappings := symbol_mappings st; preferred_pairs := preferred_pairs st;
     fee_maker := fee_maker st; fee_taker := fee_taker st;
     socket_manager := m; socket_connections := conns;
     price_callbacks := cbs; ws_thread := th;
     requests := requests st; now := now st; slept := slept st;
     draws := draws st; delivered := delivered st |}.

Definition with_world (r : nat) (t : Q) (sl : list Z) (d : nat)
    (dl : list (nat * string * Q)) (st : State) : State :=
  {| ticker_cache := ticker_cache st; manual_orders := manual_orders st;
     symbol_mappings := symbol_mappings st; preferred_pairs := preferred_pairs st;
     fee_maker := fee_maker st; fee_taker := fee_taker st;
     socket_manager := socket_manager st;
     socket_connections := socket_connections st;
     price_callbacks := price_callbacks st; ws_thread := ws_thread st;
     requests := r; now := t; slept := sl; draws := d; delivered := dl |}.

(** ** The monad of methods *)

Definition M (A : Type) : Type := State -> res A * State.

Definition ret {A} (a : A) : M A := fun st => (Ok a, st).
Definition raise {A} (e : exn) : M A := fun st => (Raise e, st).
Definition bind {A B} (m : M A) (k : A -> M B) : M B :=
  fun st => match m st with
            | (Ok a, st') => k a st'
            | (Raise e, st') => (Raise e, st')
            end.
(** [try: m except Exception as e: h e] *)
Definition try_except {A} (m : M A) (h : exn -> M A) : M A :=
  fun st => match m st with
            | (Ok a, st') => (Ok a, st')
            | (Raise e, st') => h e st'
            end.
Definition gets {A} (f : State -> A) : M A := fun st => (Ok (f st), st).
Definition modify (f : State -> State) : M unit := fun st => (Ok tt, f st).

Notation "'let*' x ':=' m 'in' k" := (bind m (fun x => k))
  (at level 10, x binder, k at level 200).

(** One request to the exchange. *)
Definition request {A} (endpoint : nat -> res A) : M A :=
  fun st => (endpoint (requests st),
             with_world (S (requests st)) (now st) (slept st) (draws st)
                        (delivered st) st).

(** [time.sleep(seconds)] *)
Definition sleep (seconds : Z) : M unit :=
  modify (fun st => with_world (requests st) (now st + inject_Z seconds)%Q
                               (seconds :: slept st) (draws st) (delivered st) st).

Section Client.
Context (X : Exchange).

(** [random.randint(a, b)]: an integer of the closed interval. *)
Definition randint (a b : Z) : M Z :=
  fun st => (Ok (a + random_source X (draws st) mod (b - a + 1))%Z,
             with_world (requests st) (now st) (slept st) (S (draws st))
                        (delivered st) st).

(** [self.symbol_mappings.get(symbol, symbol)] *)
Fixpoint assoc (k : string) (l : list (string * string)) : option string :=
  match l with
  | [] => None
  | (k', v) :: l' => if decide (k' = k) then Some v else assoc k l'
  end.

Definition get_mapped_symbol (st : State) (symbol : string) : string :=
  default symbol (assoc symbol (symbol_mappings st)).

(** [self.manual_orders.get(symbol, [])] *)
Definition get_manual_orders (st : State) (symbol : string) : list Order :=
  default [] (manual_orders st !! symbol).

(** [self.ticker_cache[symbol] = (time.time(), price)] *)
Definition cache_price (symbol : string) (price : Q) : M unit :=
  modify (fun st => with_ticker_cache (<[symbol := (now st, price)]> (ticker_cache st)) st).

(** *** [get_symbol_price], the definition in force (line 1349)

    The class body defines [get_symbol_price] twice; the later definition
    replaces the earlier one, so this is the method every caller reaches. *)
Definition get_symbol_price (symbol : string) : M Q :=
  try_except
    (let* mapped_symbol := gets (fun st => get_mapped_symbol st symbol) in
     request (fun n => client_get_symbol_ticker X n mapped_symbol))
    (fun e => raise e).


(** *** Sorting

    [list.sort(key=..., reverse=True)] and [sorted(..., reverse=True)]: a
    stable sort into descending key order.  [ltb] is the strict order of the
    keys. *)
Section Sort.
Context {A K : Type} (ltb : K -> K -> bool) (key : A -> K).

Fixpoint insert_reverse (x : A) (l : list A) : list A :=
  match l with
  | [] => [x]
  | y :: l' => if ltb (key x) (key y) then y :: insert_reverse x l'
               else x :: y :: l'
  end.

Definition sort_reverse (l : list A) : list A := foldr insert_reverse [] l.

(** [a] may stand before [b] in a list in descending key order. *)
Definition may_precede (a b : A) : Prop := ltb (key a) (key b) = false.

End Sort.

(** [x.get('time', '')] *)
Definition time_key (o : Order) : string := default "" (time o).

Definition sort_by_time (orders : list Order) : list Order :=
  sort_reverse String.ltb time_key orders.

(** *** [get_order_history] *)

(** The fields [get_order_history] computes for a filled exchange order. *)
Definition api_order (raw : RawOrder) : Order :=
  {| orderId := raw_orderId raw;
     symbol := raw_symbol raw;
     side := raw_side raw;
     status := raw_status raw;
     price := raw_price raw;
     origQty := raw_origQty raw;
     executedQty := raw_executedQty raw;
     cummulativeQuoteQty := raw_cummulativeQuoteQty raw;
     avgPrice := if Qltb 0 (raw_executedQty raw)
                 then (raw_cummulativeQuoteQty raw / raw_executedQty raw)%Q
                 else 0%Q;
     time := Some (strftime_localtime X (raw_time raw));
     isManual := Some false;
     commission := raw_commission raw;
     baseAsset := None; quoteAsset := None; originalSymbol := None;
     normalizedPrice := None; normalizedTotal := None; baseCurrency := None |}.

Definition is_filled (raw : RawOrder) : bool :=
  bool_decide (raw_status raw = "FILLED").

Definition get_order_history (symbol : string) : M (list Order) :=
  let* manual_orders := gets (fun st => get_manual_orders st symbol) in
  let* mapped_symbol := gets (fun st => get_mapped_symbol st symbol) in
  try_except
    (let* orders := request (fun n => client_get_all_orders X n mapped_symbol None) in
     let filled_orders := map api_order (filter (fun o => is_filled o = true) orders) in
     ret (sort_by_time (filled_orders ++ manual_orders)%list))
    (fun e =>
       match e with
       | BinanceAPIException code =>
           if bool_decide (code = INVALID_SYMBOL) && negb (bool_decide (manual_orders = []))
           then ret manual_orders
           else ret (match manual_orders with [] => [] | _ => manual_orders end)
       | _ => raise e
       end).

(** *** [get_open_orders] *)

Definition api_open_order (raw : RawOrder) : OpenOrder :=
  {| open_orderId := raw_orderId raw;
     open_side := raw_side raw;
     open_price := raw_price raw;
     open_origQty := raw_origQty raw;
     open_executedQty := raw_executedQty raw;
     open_lockedQty := (raw_origQty raw - raw_executedQty raw)%Q;
     open_time := strftime_localtime X (raw_time raw) |}.

Definition get_open_orders (symbol : string) : M (list OpenOrder) :=
  let* mapped_symbol := gets (fun st => get_mapped_symbol st symbol) in
  try_except
    (let* open_orders := request (fun n => client_get_open_orders X n mapped_symbol) in
     ret (map api_open_order open_orders))
    (fun e =>
       match e with
       | BinanceAPIException code =>
           if decide (code = INVALID_SYMBOL) then ret [] else raise e
       | _ => raise e
       end).

(** *** [get_consolidated_order_history], the definition in force (line 508) *)

Fixpoint mapM {A B} (f : A -> M B) (l : list A) : M (list B) :=
  match l with
  | [] => ret []
  | x :: l' =>
      let* y := f x in
      let* ys := mapM f l' in
      ret (y :: ys)
  end.

Definition quote_assets : list string := ["USDT"; "BUSD"; "USDC"; "BTC"; "ETH"].

(** [pair in self.manual_orders and self.manual_orders[pair]] *)
Definition has_manual_orders (pair : string) (st : State) : bool :=
  match manual_orders st !! pair with
  | Some (_ :: _) => true
  | _ => false
  end.

(** The probe of one pair; manual orders are looked at in the [except
    Exception] branch only. *)
Definition pair_has_orders (pair : string) : M bool :=
  try_except
    (let* orders := request (fun n => client_get_all_orders X n pair (Some 1%Z)) in
     ret (match orders with [] => false | _ => true end))
    (fun _ => gets (has_manual_orders pair)).

(** [for quote in [...]: ... if has_orders: all_pairs.append(pair)] *)
Fixpoint probe_pairs (probe : string -> M bool) (asset : string)
    (quotes : list string) (all_pairs : list string) : M (list string) :=
  match quotes with
  | [] => ret all_pairs
  | quote :: rest =>
      let pair := asset +:+ quote in
      let* has_orders := probe pair in
      probe_pairs probe asset rest
        (if has_orders then (all_pairs ++ [pair])%list else all_pairs)
  end.

(** [for invalid_symbol, valid_symbol in self.symbol_mappings.items(): ...] *)
Definition add_mapped_pairs (asset : string) (mappings : list (string * string))
    (all_pairs : list string) : list string :=
  foldl (fun acc m =>
           if String.prefix asset m.1 && negb (bool_decide (m.2 ∈ acc))
           then (acc ++ [m.2])%list else acc)
        all_pairs mappings.

(** [pair[len(asset):]] *)
Fixpoint string_drop (n : nat) (s : string) : string :=
  match n, s with
  | O, _ => s
  | S n', String _ s' => string_drop n' s'
  | S _, EmptyString => EmptyString
  end.

(** Float division. *)
Definition pydiv (x y : Q) : M Q :=
  if Qeq_bool y 0 then raise ZeroDivisionError else ret (x / y)%Q.

Definition with_pair_info (asset quote_asset pair : string) (o : Order) : Order :=
  {| orderId := orderId o; symbol := symbol o; side := side o; status := status o;
     price := price o; origQty := origQty o; executedQty := executedQty o;
     cummulativeQuoteQty := cummulativeQuoteQty o; avgPrice := avgPrice o;
     time := time o; isManual := isManual o; commission := commission o;
     baseAsset := Some asset; quoteAsset := Some quote_asset;
     originalSymbol := Some pair;
     normalizedPrice := normalizedPrice o; normalizedTotal := normalizedTotal o;
     baseCurrency := baseCurrency o |}.

Definition with_normalized (normalized_price normalized_total : Q)
    (currency : string) (o : Order) : Order :=
  {| orderId := orderId o; symbol := symbol o; side := side o; status := status o;
     price := price o; origQty := origQty o; executedQty := executedQty o;
     cummulativeQuoteQty := cummulativeQuoteQty o; avgPrice := avgPrice o;
     time := time o; isManual := isManual o; commission := commission o;
     baseAsset := baseAsset o; quoteAsset := quoteAsset o;
     originalSymbol := originalSymbol o;
     normalizedPrice := Some normalized_price;
     normalizedTotal := Some normalized_total;
     baseCurrency := Some currency |}.

(** The conversion inside the inner [try]: through BTC, through ETH, by the
    direct pair, by the inverse of the reverse pair, or none. *)
Definition normalized_values (order : Order) (quote_asset base_currency : string)
  : M (Q * Q) :=
  if decide (quote_asset = "BTC") then
    let* btc_price := get_symbol_price ("BTC" +:+ base_currency) in
    ret (price order * btc_price, cummulativeQuoteQty order * btc_price)%Q
  else if decide (quote_asset = "ETH") then
    let* eth_price := get_symbol_price ("ETH" +:+ base_currency) in
    ret (price order * eth_price, cummulativeQuoteQty order * eth_price)%Q
  else
    try_except
      (let* conversion_rate := get_symbol_price (quote_asset +:+ base_currency) in
       ret (price order * conversion_rate,
            cummulativeQuoteQty order * conversion_rate)%Q)
      (fun _ =>
         try_except
           (let* reverse_price := get_symbol_price (base_currency +:+ quote_asset) in
            let* conversion_rate := pydiv 1 reverse_price in
            ret (price order * conversion_rate,
                 cummulativeQuoteQty order * conversion_rate)%Q)
           (fun _ => ret (price order, cummulativeQuoteQty order))).

(** The body of [for order in orders]. *)
Definition annotate_order (asset pair base_currency : string) (order : Order) : M Order :=
  let quote_asset := string_drop (String.length asset) pair in
  let order := with_pair_info asset quote_asset pair order in
  if decide (quote_asset = base_currency) then
    ret (with_normalized (price order) (cummulativeQuoteQty order) base_currency order)
  else
    try_except
      (let* normalized := normalized_values order quote_asset base_currency in
       ret (with_normalized normalized.1 normalized.2 base_currency order))
      (fun _ =>
         ret (with_normalized (price order) (cummulativeQuoteQty order)
                              quote_asset order)).

(** Everything after the probing loop, shared verbatim by both definitions. *)
Definition consolidate (asset base_currency : string) (all_pairs : list string)
  : M (list Order) :=
  let* mappings := gets symbol_mappings in
  let all_pairs := add_mapped_pairs asset mappings all_pairs in
  let* per_pair :=
    mapM (fun pair =>
            let* orders := get_order_history pair in
            mapM (annotate_order asset pair base_currency) orders)
         all_pairs in
  ret (sort_by_time (concat per_pair)).

Definition get_consolidated_order_history (asset base_currency : string)
  : M (list Order) :=
  let* all_pairs := probe_pairs pair_has_orders asset quote_assets [] in
  consolidate asset base_currency all_pairs.

End Client.

(** ** [core/calculator.py] *)

Definition is_buy (o : Order) : bool := bool_decide (side o = "BUY").
Definition is_sell (o : Order) : bool := bool_decide (side o = "SELL").

(** The sums a loop over [orders] accumulates for BUY orders. *)
Definition buy_cost (orders : list Order) : Q :=
  foldl (fun acc o => if is_buy o then (acc + cummulativeQuoteQty o)%Q else acc) 0%Q orders.
Definition buy_qty (orders : list Order) : Q :=
  foldl (fun acc o => if is_buy o then (acc + executedQty o)%Q else acc) 0%Q orders.

Definition calculate_average_buy_price (orders : list Order) : Q :=
  let total_cost := buy_cost orders in
  let total_qty := buy_qty orders in
  if Qeq_bool total_qty 0 then 0%Q else (total_cost / total_qty)%Q.

Definition calculate_break_even_price (orders : list Order) (fee_rate : Q) : Q :=
  let total_cost := buy_cost orders in
  let total_qty := buy_qty orders in
  let total_fees :=
    foldl (fun acc o => if is_buy o then (acc + cummulativeQuoteQty o * fee_rate)%Q else acc)
          0%Q orders in
  if Qeq_bool total_qty 0 then 0%Q else ((total_cost + total_fees) / total_qty)%Q.

(** ** Position metrics *)

Record PositionMetrics : Type := {
  pm_symbol : string;
  pm_current_price : Q;
  pm_holdings : Q;
  pm_available : Q;
  pm_locked : Q;
  pm_open_orders : list OpenOrder;
  pm_avg_buy_price : Q;
  pm_break_even_price : Q;
  pm_total_cost : Q;
  pm_current_value : Q;
  pm_pnl_amount : Q;
  pm_pnl_percent : Q;
  pm_is_manual : bool;
  pm_mapped_symbol : option (option string);
  pm_error : option string
}.

Record ConsolidatedMetrics : Type := {
  cm_asset : string;
  cm_baseCurrency : string;
  cm_current_price : Q;
  cm_holdings : Q;
  cm_avg_buy_price : Q;
  cm_break_even_price : Q;
  cm_total_cost : Q;
  cm_current_value : Q;
  cm_pnl_amount : Q;
  cm_pnl_percent : Q;
  cm_trading_pairs : gset string;
  cm_order_count : nat;
  cm_error : option string
}.

(** The running totals [(total_cost, total_qty, total_fees)] of the loops
    over orders: BUY adds cost and quantity, SELL subtracts both, any other
    side changes neither; the fee of every order is added. *)
Definition accumulate (fee_of : Order -> Q -> Q) (cost_of : Order -> Q)
    (orders : list Order) : Q * Q * Q :=
  foldl (fun '(total_cost, total_qty, total_fees) order =>
           let qty := executedQty order in
           let cost := cost_of order in
           let total_fees := (total_fees + fee_of order cost)%Q in
           if is_buy order then ((total_cost + cost)%Q, (total_qty + qty)%Q, total_fees)
           else if is_sell order then ((total_cost - cost)%Q, (total_qty - qty)%Q, total_fees)
           else (total_cost, total_qty, total_fees))
        (0%Q, 0%Q, 0%Q) orders.

(** The dictionary returned by the [except Exception] handler of
    [calculate_position_metrics]. *)
Definition position_error (symbol : string) (e : exn) : PositionMetrics :=
  {| pm_symbol := symbol; pm_current_price := 0; pm_holdings := 0;
     pm_available := 0; pm_locked := 0; pm_open_orders := [];
     pm_avg_buy_price := 0; pm_break_even_price := 0; pm_total_cost := 0;
     pm_current_value := 0; pm_pnl_amount := 0; pm_pnl_percent := 0;
     pm_is_manual := false; pm_mapped_symbol := None;
     pm_error := Some (str_exn e) |}.

Definition consolidated_error (asset base_currency : string) (e : exn)
  : ConsolidatedMetrics :=
  {| cm_asset := asset; cm_baseCurrency := base_currency;
     cm_current_price := 0; cm_holdings := 0; cm_avg_buy_price := 0;
     cm_break_even_price := 0; cm_total_cost := 0; cm_current_value := 0;
     cm_pnl_amount := 0; cm_pnl_percent := 0; cm_trading_pairs := ∅;
     cm_order_count := 0; cm_error := Some (str_exn e) |}.

Section Metrics.
Context (X : Exchange).

(** [sum of lockedQty over open SELL orders] *)
Definition locked_quantity (open_orders : list OpenOrder) : Q :=
  foldl (fun acc o => if bool_decide (open_side o = "SELL")
                      then (acc + open_lockedQty o)%Q else acc) 0%Q open_orders.

(** The [try] block of [calculate_position_metrics]. *)
Definition position_metrics_body (symbol : string) (include_orders : option (list Z))
    (manual_price : option Q) (manual_orders : option (list Order))
  : M PositionMetrics :=
  let provided := match manual_orders with Some (_ :: _) => true | _ => false end in
  let* fetched :=
    if provided then ret (default [] manual_orders, true)
    else
      try_except
        (let* orders := get_order_history X symbol in
         ret (orders, forallb (fun o => default false (isManual o)) orders))
        (fun e =>
           match e with
           | BinanceAPIException code =>
               if decide (code = INVALID_SYMBOL)
               then let* orders := gets (fun st => get_manual_orders st symbol) in
                    ret (orders, true)
               else raise e
           | _ => raise e
           end) in
  let orders := fetched.1 in
  let is_manual := fetched.2 in
  let* open_orders := try_except (get_open_orders X symbol) (fun _ => ret []) in
  let locked_qty := locked_quantity open_orders in
  let orders :=
    match include_orders with
    | Some ids => filter (fun o => orderId o ∈ ids) orders
    | None => orders
    end in
  let '(total_cost, total_qty, total_fees) :=
    accumulate (fun _ cost => cost * (1 # 1000))%Q cummulativeQuoteQty orders in
  let* current_price :=
    match manual_price with
    | Some p => ret p
    | None =>
        try_except
          (let* mapped_symbol := gets (fun st => get_mapped_symbol st symbol) in
           get_symbol_price X mapped_symbol)
          (fun e =>
             match e with
             | BinanceAPIException code =>
                 if decide (code = INVALID_SYMBOL) then ret 0%Q else raise e
             | _ => raise e
             end)
    end in
  let avg_buy_price := if Qltb 0 total_qty then (total_cost / total_qty)%Q else 0%Q in
  let break_even_price :=
    if Qltb 0 total_qty then ((total_cost + total_fees) / total_qty)%Q else 0%Q in
  let current_value := (total_qty * current_price)%Q in
  let pnl_amount := (current_value - total_cost)%Q in
  let pnl_percent :=
    if Qltb 0 total_cost then (pnl_amount / total_cost * 100)%Q else 0%Q in
  let available_qty := (total_qty - locked_qty)%Q in
  let* mapped := gets (fun st => get_mapped_symbol st symbol) in
  ret {| pm_symbol := symbol; pm_current_price := current_price;
         pm_holdings := total_qty; pm_available := available_qty;
         pm_locked := locked_qty; pm_open_orders := open_orders;
         pm_avg_buy_price := avg_buy_price;
         pm_break_even_price := break_even_price;
         pm_total_cost := total_cost; pm_current_value := current_value;
         pm_pnl_amount := pnl_amount; pm_pnl_percent := pnl_percent;
         pm_is_manual := is_manual || bool_decide (is_Some manual_price)
                         || bool_decide (is_Some manual_orders);
         pm_mapped_symbol :=
           Some (if decide (mapped = symbol) then None else Some mapped);
         pm_error := None |}.

(** The method: it returns a dictionary, never an exception. *)
Definition calculate_position_metrics (symbol : string)
    (include_orders : option (list Z)) (manual_price : option Q)
    (manual_orders : option (list Order)) (st : State) : PositionMetrics * State :=
  match position_metrics_body symbol include_orders manual_price manual_orders st with
  | (Ok metrics, st') => (metrics, st')
  | (Raise e, st') => (position_error symbol e, st')
  end.

(** The [try] block of [calculate_consolidated_position_metrics]. *)
Definition consolidated_metrics_body (asset base_currency : string)
  : M ConsolidatedMetrics :=
  let* all_orders := get_consolidated_order_history X asset base_currency in
  let* fees := gets (fun st => (fee_maker st, fee_taker st)) in
  let '(total_cost, total_qty, total_fees) :=
    accumulate
      (fun order cost =>
         match commission order with
         | Some c => c
         | None => if is_buy order then (cost * fees.2)%Q else (cost * fees.1)%Q
         end)
      (fun order => default (cummulativeQuoteQty order) (normalizedTotal order))
      all_orders in
  let* current_price :=
    try_except
      (get_symbol_price X (asset +:+ base_currency))
      (fun _ =>
         try_except
           (let* btc_price := get_symbol_price X ("BTC" +:+ base_currency) in
            let* asset_btc_price := get_symbol_price X (asset +:+ "BTC") in
            ret (asset_btc_price * btc_price)%Q)
           (fun _ =>
              ret (match all_orders with
                   | first :: _ => default 0%Q (normalizedPrice first)
                   | [] => 0%Q
                   end))) in
  let avg_buy_price := if Qltb 0 total_qty then (total_cost / total_qty)%Q else 0%Q in
  let break_even_price :=
    if Qltb 0 total_qty then ((total_cost + total_fees) / total_qty)%Q else 0%Q in
  let current_value := (total_qty * current_price)%Q in
  let pnl_amount := (current_value - total_cost)%Q in
  let pnl_percent :=
    if Qltb 0 total_cost then (pnl_amount / total_cost * 100)%Q else 0%Q in
  ret {| cm_asset := asset; cm_baseCurrency := base_currency;
         cm_current_price := current_price; cm_holdings := total_qty;
         cm_avg_buy_price := avg_buy_price;
         cm_break_even_price := break_even_price;
         cm_total_cost := total_cost; cm_current_value := current_value;
         cm_pnl_amount := pnl_amount; cm_pnl_percent := pnl_percent;
         cm_trading_pairs :=
           list_to_set (map (fun o => default "" (originalSymbol o)) all_orders);
         cm_order_count := length all_orders; cm_error := None |}.

Definition calculate_consolidated_position_metrics (asset base_currency : string)
    (st : State) : ConsolidatedMetrics * State :=
  match consolidated_metrics_body asset base_currency st with
  | (Ok metrics, st') => (metrics, st')
  | (Raise e, st') => (consolidated_error asset base_currency e, st')
  end.

End Metrics.

(** ** Account and balances *)

Definition stablecoins : list string :=
  ["USDT"; "USDC"; "BUSD"; "TUSD"; "DAI"; "USDP"; "FDUSD"; "USDK"].

(** [{ticker['symbol']: float(ticker['price']) for ticker in ticker_prices}]:
    a later ticker of the same symbol replaces an earlier one. *)
Definition price_table (tickers : list (string * Q)) : gmap string Q :=
  foldl (fun m t => <[t.1 := t.2]> m) ∅ tickers.

(** [for quote in ['USDT', 'BUSD', 'USDC', 'BTC', 'ETH']: ...]: the first
    quote whose pair is listed decides, and ends the loop with [break]. *)
Fixpoint quote_chain_value (prices : gmap string Q) (asset : string) (total : Q)
    (quotes : list string) : Q :=
  match quotes with
  | [] => 0%Q
  | quote :: rest =>
      match prices !! (asset +:+ quote) with
      | Some p =>
          if bool_decide (quote ∈ stablecoins) then (total * p)%Q
          else
            match bool_decide (quote = "BTC"), prices !! "BTCUSDT" with
            | true, Some btc_usdt => (total * p * btc_usdt)%Q
            | _, _ =>
                match bool_decide (quote = "ETH"), prices !! "ETHUSDT" with
                | true, Some eth_usdt => (total * p * eth_usdt)%Q
                | _, _ => 0%Q
                end
            end
      | None => quote_chain_value prices asset total rest
      end
  end.

Definition compute_usd_value (prices : gmap string Q) (asset : string) (total : Q) : Q :=
  if bool_decide (asset ∈ stablecoins) then total
  else quote_chain_value prices asset total quote_assets.

(** [self.preferences.get('preferred_pairs', {}).get(asset, '')] *)
Definition get_preferred_pair (st : State) (asset : string) : string :=
  default "" (preferred_pairs st !! asset).

(** The body of [for balance in account['balances']]: the entry appended,
    or [None] when the balance is skipped. *)
Definition balance_entry (st : State) (prices : gmap string Q) (min_value : Q)
    (balance : RawBalance) : option Balance :=
  let total := (raw_free balance + raw_locked balance)%Q in
  if Qle_bool total 0 then None
  else
    let usd_value := compute_usd_value prices (raw_asset balance) total in
    if Qltb usd_value min_value then None
    else Some {| asset := raw_asset balance; free := raw_free balance;
                 locked := raw_locked balance; total := total;
                 usd_value := usd_value;
                 preferred_pair := get_preferred_pair st (raw_asset balance) |}.

Definition sort_by_usd_value (balances : list Balance) : list Balance :=
  sort_reverse Qltb usd_value balances.

Section Account.
Context (X : Exchange).

Fixpoint get_account_info (depth : nat) : M (list RawBalance) :=
  match depth with
  | O => raise RecursionError
  | S depth =>
      try_except
        (request (client_get_account X))
        (fun e =>
           match e with
           | BinanceAPIException code =>
               if decide (code = IP_BANNED) then raise e
               else if decide (code = RATE_LIMITED) then
                 let* jitter := randint X 1 30 in
                 let* _ := sleep (30 + jitter) in
                 get_account_info depth
               else raise e
           | _ => raise e
           end)
  end.

(** The price table of the inner [try]: empty when the listing of all
    tickers is rate limited or the address is banned. *)
Definition all_prices : M (gmap string Q) :=
  try_except
    (let* ticker_prices := request (client_get_all_tickers X) in
     ret (price_table ticker_prices))
    (fun e =>
       match e with
       | BinanceAPIException code =>
           if bool_decide (code = IP_BANNED) || bool_decide (code = RATE_LIMITED)
           then ret ∅ else raise e
       | _ => raise e
       end).

(** The [try] block of [get_spot_balances]. *)
Definition list_balances (depth : nat) (min_value : Q) : M (list Balance) :=
  let* account := get_account_info depth in
  let* prices := all_prices in
  let* st := gets id in
  let balances := omap (balance_entry st prices min_value) account in
  ret (sort_by_usd_value balances).

Fixpoint get_spot_balances (depth : nat) (min_value : Q) : M (list Balance) :=
  match depth with
  | O => raise RecursionError
  | S depth' =>
      try_except
        (list_balances depth min_value)
        (fun e =>
           match e with
           | BinanceAPIException code =>
               if decide (code = IP_BANNED) then ret []
               else if decide (code = RATE_LIMITED) then
                 let* jitter := randint X 1 30 in
                 let* _ := sleep (30 + jitter) in
                 get_spot_balances depth' min_value
               else ret []
           | _ => raise e
           end)
  end.

End Account.

(** ** Live prices: sockets and polling *)

Definition starts_with_poll (conn_key : string) : bool := String.prefix "poll_" conn_key.

(** [raise] when the method of the socket manager is scripted to fail. *)
Definition may_raise (failure : option exn) : M unit :=
  match failure with
  | Some e => raise e
  | None => ret tt
  end.

Section Sockets.
Context (X : Exchange).

(** The guard of the polling loop: [symbol in self.price_callbacks]. *)
Definition poll_guard (symbol : string) (st : State) : bool :=
  bool_decide (is_Some (price_callbacks st !! symbol)).

(** [callback({'symbol': symbol, 'price': price})] *)
Definition deliver (callback : nat) (symbol : string) (price : Q) : M unit :=
  modify (fun st => with_world (requests st) (now st) (slept st) (draws st)
                               ((callback, symbol, price) :: delivered st) st).

(** The loop [poll_price] of a polling thread, observed for at most
    [iterations] rounds; the result is the number of rounds performed. *)
Fixpoint poll_price (iterations : nat) (symbol : string) (callback : nat) : M nat :=
  match iterations with
  | O => ret O
  | S iterations =>
      fun st =>
        if poll_guard symbol st then
          (let* _ := try_except
                       (let* price := get_symbol_price X symbol in
                        deliver callback symbol price)
                       (fun _ => ret tt) in
           let* _ := sleep 5 in
           let* n := poll_price iterations symbol callback in
           ret (S n)) st
        else (Ok O, st)
  end.

(** [_start_polling]: the thread it starts runs [poll_price symbol callback]. *)
Definition _start_polling (symbol : string) (callback : nat) : M string :=
  let poll_id := "poll_" +:+ symbol in
  let* _ := modify (fun st =>
              with_sockets (socket_manager st)
                           (<[symbol := poll_id]> (socket_connections st))
                           (<[symbol := callback]> (price_callbacks st))
                           (ws_thread st) st) in
  ret poll_id.

(** The thread [run_socket], taken to run as soon as it is started. *)
Definition run_socket (manager : SocketManager) (symbol : string) (callback : nat)
  : M unit :=
  try_except
    (if has_connect manager then may_raise (connect_raises manager)
     else if has_start_socket manager then may_raise (connect_raises manager)
     else raise (OtherException "Unknown WebSocket client interface"))
    (fun _ => let* _ := _start_polling symbol callback in ret tt).

Definition set_socket_manager (manager : SocketManager) : M unit :=
  modify (fun st => with_sockets (Some manager) (socket_connections st)
                                 (price_callbacks st) (ws_thread st) st).

Definition start_symbol_ticker_websocket (symbol : string) (callback : nat) : M string :=
  try_except
    (let* current := gets socket_manager in
     let* manager :=
       match current with
       | Some manager => ret manager
       | None =>
           let* manager :=
             try_except
               (fun st => ((if spot_websocket_client_in_globals X
                            then new_spot_websocket_client X
                            else new_socket_manager X), st))
               (fun _ => fun st => (new_socket_manager X, st)) in
           let* _ := set_socket_manager manager in
           let* _ := run_socket manager symbol callback in
           let* _ := modify (fun st =>
                       with_sockets (socket_manager st) (socket_connections st)
                                    (price_callbacks st) true st) in
           let* _ := sleep 1 in
           ret manager
       end in
     let* _ := modify (fun st =>
                 with_sockets (socket_manager st) (socket_connections st)
                              (<[symbol := callback]> (price_callbacks st))
                              (ws_thread st) st) in
     try_except
       (let* conn_key :=
          if has_symbol_ticker manager then
            let* _ := may_raise (subscribe_raises manager) in
            ret ("ticker_" +:+ symbol)
          else if has_start_symbol_ticker_socket manager then
            let* _ := may_raise (subscribe_raises manager) in
            ret (socket_key manager symbol)
          else if has_ticker manager then
            let* _ := may_raise (subscribe_raises manager) in
            ret ("ticker_" +:+ symbol)
          else raise (OtherException "Could not find appropriate WebSocket method") in
        let* _ := modify (fun st =>
                    with_sockets (socket_manager st)
                                 (<[symbol := conn_key]> (socket_connections st))
                                 (price_callbacks st) (ws_thread st) st) in
        ret conn_key)
       (fun _ => _start_polling symbol callback))
    (fun _ => _start_polling symbol callback).

Definition stop_symbol_ticker_websocket (symbol : string) : M unit :=
  let* connection := gets (fun st => socket_connections st !! symbol) in
  let* current := gets socket_manager in
  match connection, current with
  | Some conn_key, Some manager =>
      let* _ :=
        if starts_with_poll conn_key then
          modify (fun st =>
            with_sockets (socket_manager st) (socket_connections st)
                         (delete symbol (price_callbacks st)) (ws_thread st) st)
        else
          try_except
            (if has_stop_socket manager then may_raise (stop_raises manager)
             else ret tt)
            (fun _ => ret tt) in
      modify (fun st =>
        with_sockets (socket_manager st) (delete symbol (socket_connections st))
                     (delete symbol (price_callbacks st)) (ws_thread st) st)
  | _, _ => ret tt
  end.

Definition close_websockets : M unit :=
  let* current := gets socket_manager in
  match current with
  | Some manager =>
      let* _ :=
        try_except
          (if has_close manager then may_raise (close_raises manager)
           else if has_disconnect manager then may_raise (close_raises manager)
           else ret tt)
          (fun _ => ret tt) in
      modify (with_sockets None ∅ ∅ false)
  | None => ret tt
  end.

End Sockets.

(** *** [get_symbol_price], the earlier definition (line 307)

    The cache-aware definition, replaced by the later one when the class
    body is executed.  No caller reaches it: this is the function object the
    first [def] creates, as it would run on an instance of the class. *)
Module FirstDef.
Section Price.
Context (X : Exchange).

(** The alternative price queries tried after an invalid-symbol error, in
    the order of [fallback_methods]. *)
Definition fallback_methods (symbol : string) : list (M Q) :=
  [ request (fun n => client_get_ticker_price X n symbol);
    request (fun n => client_get_ticker X n symbol);
    request (fun n => client_get_avg_price X n symbol);
    request (fun n => client_get_recent_trades X n symbol);
    request (fun n => client_get_klines X n symbol) ].

(** [for method in fallback_methods: try: ... return price except Exception:
    continue], followed by [raise e]. *)
Fixpoint try_fallbacks (symbol : string) (methods : list (M Q)) (e : exn) : M Q :=
  match methods with
  | [] => raise e
  | method :: rest =>
      try_except
        (let* price := method in
         let* _ := cache_price symbol price in
         ret price)
        (fun _ => try_fallbacks symbol rest e)
  end.

(** [if symbol in self.ticker_cache: return self.ticker_cache[symbol][1]],
    otherwise [otherwise]. *)
Definition cached_or (symbol : string) (otherwise : M Q) : M Q :=
  fun st => match ticker_cache st !! symbol with
            | Some (_, price) => (Ok price, st)
            | None => otherwise st
            end.

(** The cache test at the head of the method: a price is served from the
    cache when [use_cache] holds and the entry is less than 5 seconds old. *)
Definition fresh_cached (symbol : string) (use_cache : bool) (st : State) : option Q :=
  if use_cache then
    match ticker_cache st !! symbol with
    | Some (cache_time, price) =>
        if Qltb (now st - cache_time) 5 then Some price else None
    | None => None
    end
  else None.

(** [self.get_symbol_price(symbol, use_cache)] inside the earlier
    definition.  The attribute is looked up on the instance when the call is
    made, and the class binds it to the later definition (line 1349), which
    takes the symbol only: the call with two arguments raises [TypeError]
    before any of that body runs. *)
Definition self_get_symbol_price (symbol : string) (use_cache : bool) : M Q :=
  raise arity_error.

Definition get_symbol_price (symbol : string) (use_cache : bool) : M Q :=
  fun st =>
    match fresh_cached symbol use_cache st with
    | Some price => (Ok price, st)
    | None =>
        try_except
          (let* price := request (fun n => client_get_symbol_ticker X n symbol) in
           let* _ := cache_price symbol price in
           ret price)
          (fun e =>
             match e with
             | BinanceAPIException code =>
                 if decide (code = INVALID_SYMBOL) then
                   let* mapped_symbol := gets (fun st => get_mapped_symbol st symbol) in
                   if decide (mapped_symbol = symbol)
                   then try_fallbacks symbol (fallback_methods symbol) e
                   else self_get_symbol_price mapped_symbol use_cache
                 else if decide (code = RATE_LIMITED) then
                   cached_or symbol
                     (let* jitter := randint X 1 20 in
                      let* _ := sleep (10 + jitter) in
                      self_get_symbol_price symbol use_cache)
                 else if decide (code = IP_BANNED) then
                   cached_or symbol (raise e)
                 else
                   cached_or symbol (raise e)
             | _ => raise e
             end)
          st
    end.

End Price.

(** *** [get_consolidated_order_history], the earlier definition (line 402)

    It differs from the definition in force in the probe of a pair, whose
    handler is [except BinanceAPIException] instead of [except Exception]
    (and in writing its warning with [logging] instead of [print]). *)
Section History.
Context (X : Exchange).

Definition pair_has_orders (pair : string) : M bool :=
  try_except
    (let* orders := request (fun n => client_get_all_orders X n pair (Some 1%Z)) in
     ret (match orders with [] => false | _ => true end))
    (fun e =>
       match e with
       | BinanceAPIException _ => gets (has_manual_orders pair)
       | _ => raise e
       end).

Definition get_consolidated_order_history (asset base_currency : string)
  : M (list Order) :=
  let* all_pairs := probe_pairs pair_has_orders asset quote_assets [] in
  consolidate X asset base_currency all_pairs.

End History.
End FirstDef.

(** ** Sample environments *)

(** The instance right after [__init__], with no manual data on file. *)
Definition initial_state : State :=
  {| ticker_cache := ∅; manual_orders := ∅; symbol_mappings := [];
     preferred_pairs := ∅; fee_maker := 1 # 1000; fee_taker := 1 # 1000;
     socket_manager := None; socket_connections := ∅; price_callbacks := ∅;
     ws_thread := false; requests := 0; now := 0; slept := []; draws := 0;
     delivered := [] |}.

Definition connection_error : exn := OtherException "ConnectionError".

(** An exchange given by its price, order, and account endpoints; the
    other endpoints are unreachable and no socket client can be built. *)
Definition exchange_of (ticker : nat -> string -> res Q)
    (orders : nat -> string -> option Z -> res (list RawOrder))
    (account : nat -> res (list RawBalance))
    (tickers : nat -> res (list (string * Q))) : Exchange :=
  {| client_get_symbol_ticker := ticker;
     client_get_all_tickers := tickers;
     client_get_ticker_price := fun _ _ => Raise connection_error;
     client_get_ticker := fun _ _ => Raise connection_error;
     client_get_avg_price := fun _ _ => Raise connection_error;
     client_get_recent_trades := fun _ _ => Raise connection_error;
     client_get_klines := fun _ _ => Raise connection_error;
     client_get_all_orders := orders;
     client_get_open_orders := fun _ _ => Ok [];
     client_get_account := account;
     random_source := fun n => Z.of_nat n;
     strftime_localtime := fun _ => "2024-01-01 00:00:00";
     new_spot_websocket_client := Raise (OtherException "TypeError");
     new_socket_manager := Raise (OtherException "TypeError");
     spot_websocket_client_in_globals := false |}.

Definition no_orders : nat -> string -> option Z -> res (list RawOrder) :=
  fun _ _ _ => Ok [].
Definition no_account : nat -> res (list RawBalance) := fun _ => Ok [].
Definition no_tickers : nat -> res (list (string * Q)) := fun _ => Ok [].
Definition no_ticker : nat -> string -> res Q := fun _ _ => Raise connection_error.

(** The price source answers 50000 to the first request and is down
    afterwards. *)
Definition fails_after_first : Exchange :=
  exchange_of (fun n _ => match n with O => Ok 50000%Q | _ => Raise connection_error end)
              no_orders no_account no_tickers.

(** The price source is rate limited [k] times and then answers [p]. *)
Definition limited_then (k : nat) (p : Q) : Exchange :=
  exchange_of (fun n _ => if (n <? k)%nat then Raise (BinanceAPIException RATE_LIMITED)
                          else Ok p)
              no_orders no_account no_tickers.

(** A fill as the user enters it by hand. *)
Definition manual_fill (id : Z) (pair order_side : string) (qty quote_qty : Q)
    (date : string) : Order :=
  {| orderId := id; symbol := pair; side := order_side; status := "FILLED";
     price := (quote_qty / qty)%Q; origQty := qty; executedQty := qty;
     cummulativeQuoteQty := quote_qty; avgPrice := (quote_qty / qty)%Q;
     time := Some date; isManual := Some true; commission := None;
     baseAsset := None; quoteAsset := None; originalSymbol := None;
     normalizedPrice := None; normalizedTotal := None; baseCurrency := None |}.

(** One BUY of 1 for 20000 and one SELL of 0.5 for 11000. *)
Definition scenario_fills : list Order :=
  [ manual_fill (-1) "BTCUSDT" "BUY" 1 20000 "2024-01-01 00:00:00";
    manual_fill (-2) "BTCUSDT" "SELL" (1 # 2) 11000 "2024-01-02 00:00:00" ].

(** [sum(...)] over a list of numbers. *)
Definition Qsum (l : list Q) : Q := foldr Qplus 0%Q l.

Definition with_manual_data (orders : gmap string (list Order))
    (mappings : list (string * string)) (st : State) : State :=
  {| ticker_cache := ticker_cache st; manual_orders := orders;
     symbol_mappings := mappings; preferred_pairs := preferred_pairs st;
     fee_maker := fee_maker st; fee_taker := fee_taker st;
     socket_manager := socket_manager st;
     socket_connections := socket_connections st;
     price_callbacks := price_callbacks st; ws_thread := ws_thread st;
     requests := requests st; now := now st; slept := slept st;
     draws := draws st; delivered := delivered st |}.

(** One fill of XYZ against USDT, entered by hand. *)
Definition xyz_fill : Order :=
  manual_fill (-5) "XYZUSDT" "BUY" 10 30 "2024-03-01 00:00:00".

Definition xyz_manual_state : State :=
  with_manual_data {[ "XYZUSDT" := [xyz_fill] ]} [] initial_state.

(** Every order query succeeds and reports no order. *)
Definition quiet_exchange : Exchange :=
  exchange_of no_ticker no_orders no_account no_tickers.

(** Every order query raises [e]. *)
Definition orders_fail_with (e : exn) : Exchange :=
  exchange_of no_ticker (fun _ _ _ => Raise e) no_account no_tickers.

(** The one-order probe raises [e]; the full history reports no order. *)
Definition probe_fails_with (e : exn) : Exchange :=
  exchange_of no_ticker
              (fun _ _ limit => match limit with Some _ => Raise e | None => Ok [] end)
              no_account no_tickers.

(** The fallback [BinanceSocketManager] class of the module: it has
    [start], [start_symbol_ticker_socket], [stop_socket] and [close]. *)
Definition fallback_manager : SocketManager :=
  {| has_connect := false; has_start_socket := false; has_symbol_ticker := false;
     has_start_symbol_ticker_socket := true; has_ticker := false;
     has_stop_socket := true; has_close := true; has_disconnect := false;
     connect_raises := None; subscribe_raises := None; stop_raises := None;
     close_raises := None; socket_key := fun s => "fallback-" +:+ s |}.

(** An exchange that answers every price request with 50000, with the
    given outcome of building a socket manager. *)
Definition priced_exchange (manager : res SocketManager) : Exchange :=
  {| client_get_symbol_ticker := fun _ _ => Ok 50000%Q;
     client_get_all_tickers := no_tickers;
     client_get_ticker_price := fun _ _ => Raise connection_error;
     client_get_ticker := fun _ _ => Raise connection_error;
     client_get_avg_price := fun _ _ => Raise connection_error;
     client_get_recent_trades := fun _ _ => Raise connection_error;
     client_get_klines := fun _ _ => Raise connection_error;
     client_get_all_orders := no_orders;
     client_get_open_orders := fun _ _ => Ok [];
     client_get_account := no_account;
     random_source := fun n => Z.of_nat n;
     strftime_localtime := fun _ => "2024-01-01 00:00:00";
     new_spot_websocket_client := manager;
     new_socket_manager := manager;
     spot_websocket_client_in_globals := false |}.

(** No socket manager can be built. *)
Definition no_sockets : Exchange := priced_exchange (Raise (OtherException "TypeError")).

(** The state after subscribing BTCUSDT with callback 1 when no socket
    manager can be built: the subscription has fallen back to polling. *)
Definition polling_without_manager : State :=
  (start_symbol_ticker_websocket no_sockets "BTCUSDT" 1 initial_state).2.

(** The state after the same subscription with the fallback manager. *)
Definition subscribed_with_manager : State :=
  (start_symbol_ticker_websocket (priced_exchange (Ok fallback_manager))
     "BTCUSDT" 1 initial_state).2.


(** An account with a priced asset, a stablecoin, an empty balance, an
    asset without any listed pair, and an asset priced only through BTC. *)
Definition portfolio : Exchange :=
  exchange_of no_ticker no_orders
    (fun _ => Ok [ {| raw_asset := "XYZ"; raw_free := 5; raw_locked := 0 |};
                   {| raw_asset := "USDT"; raw_free := 100; raw_locked := 0 |};
                   {| raw_asset := "DUST"; raw_free := 0; raw_locked := 0 |};
                   {| raw_asset := "BTC"; raw_free := 1; raw_locked := 1 # 2 |};
                   {| raw_asset := "ALT"; raw_free := 1000; raw_locked := 0 |} ])
    (fun _ => Ok [("BTCUSDT", 50000%Q); ("ALTBTC", 1 # 1000)]).

(** An asset has a quote chain to USD when it is a stablecoin, or is listed
    against a stablecoin quote, or is listed against BTC or ETH while that
    one is listed against USDT. *)
Definition has_quote_chain (prices : gmap string Q) (asset : string) : Prop :=
  asset ∈ stablecoins \/
  (exists quote, quote ∈ ["USDT"; "BUSD"; "USDC"] /\
                 is_Some (prices !! (asset +:+ quote))) \/
  (is_Some (prices !! (asset +:+ "BTC")) /\ is_Some (prices !! "BTCUSDT")) \/
  (is_Some (prices !! (asset +:+ "ETH")) /\ is_Some (prices !! "ETHUSDT")).

(** What is expected of a returned balance list, for the prices it was
    valued with: positive totals, values of at least [min_value], value 0
    without a quote chain, and descending order of [usd_value]. *)
Definition well_listed (prices : gmap string Q) (min_value : Q)
    (balances : list Balance) : Prop :=
  (forall b, b ∈ balances ->
     (0 < total b)%Q /\ total b = (free b + locked b)%Q /\
     (min_value <= usd_value b)%Q /\
     (~ has_quote_chain prices (asset b) -> usd_value b = 0%Q)) /\
  StronglySorted (fun a b => (usd_value b <= usd_value a)%Q) balances.

(** ** Further functions of [core/calculator.py] *)

(** Division of binary64 floats: Python raises on a zero divisor of either
    sign and otherwise divides as IEEE 754 does. *)
Definition float_div (x y : float) : res float :=
  if PrimFloat.eqb y 0%float then Raise ZeroDivisionError else Ok (PrimFloat.div x y).

(** [calculate_pnl]: the pair [(pnl_amount, pnl_percent)], on binary64
    floats.  The comparisons [== 0] hold of both zeros and of no NaN, as
    [PrimFloat.eqb]; the integers [0, 0] of the early return and the factor
    [100] are read as the floats they convert to. *)
Definition calculate_pnl (current_price avg_buy_price quantity : float)
  : res (float * float) :=
  if PrimFloat.eqb avg_buy_price 0%float || PrimFloat.eqb quantity 0%float
  then Ok (0%float, 0%float)
  else
    let current_value := PrimFloat.mul current_price quantity in
    let cost_basis := PrimFloat.mul avg_buy_price quantity in
    let pnl_amount := PrimFloat.sub current_value cost_basis in
    match float_div pnl_amount cost_basis with
    | Ok ratio => Ok (pnl_amount, PrimFloat.mul ratio 100%float)
    | Raise e => Raise e
    end.

(** A position dictionary, as far as [calculate_portfolio_summary] reads it:
    both keys are read with [.get(key, 0)]. *)
Record Position : Type := {
  position_total_cost : option Q;
  position_current_value : option Q
}.

Record PortfolioSummary : Type := {
  ps_total_cost : Q;
  ps_total_value : Q;
  ps_pnl_amount : Q;
  ps_pnl_percent : Q
}.

Definition calculate_portfolio_summary (positions : list Position) : PortfolioSummary :=
  let totals :=
    foldl (fun acc position =>
             ((acc.1 + default 0 (position_total_cost position))%Q,
              (acc.2 + default 0 (position_current_value position))%Q))
          (0%Q, 0%Q) positions in
  let total_cost := totals.1 in
  let total_value := totals.2 in
  let pnl_amount := (total_value - total_cost)%Q in
  {| ps_total_cost := total_cost;
     ps_total_value := total_value;
     ps_pnl_amount := pnl_amount;
     ps_pnl_percent :=
       if Qltb 0 total_cost then (pnl_amount / total_cost * 100)%Q else 0%Q |}.

(** The position dictionary that [calculate_position_metrics] hands to a
    summary. *)
Definition position_of_metrics (m : PositionMetrics) : Position :=
  {| position_total_cost := Some (pm_total_cost m);
     position_current_value := Some (pm_current_value m) |}.

(** Two positions, the second without a [total_cost] key. *)
Definition priced_position : Position :=
  {| position_total_cost := Some 9000%Q; position_current_value := Some 11000%Q |}.
Definition costless_position : Position :=
  {| position_total_cost := None; position_current_value := Some 5%Q |}.

(** The open-order query is down; everything else is quiet. *)
Definition open_orders_down : Exchange :=
  {| client_get_symbol_ticker := no_ticker;
     client_get_all_tickers := no_tickers;
     client_get_ticker_price := fun _ _ => Raise connection_error;
     client_get_ticker := fun _ _ => Raise connection_error;
     client_get_avg_price := fun _ _ => Raise connection_error;
     client_get_recent_trades := fun _ _ => Raise connection_error;
     client_get_klines := fun _ _ => Raise connection_error;
     client_get_all_orders := no_orders;
     client_get_open_orders := fun _ _ => Raise connection_error;
     client_get_account := no_account;
     random_source := fun n => Z.of_nat n;
     strftime_localtime := fun _ => "2024-01-01 00:00:00";
     new_spot_websocket_client := Raise (OtherException "TypeError");
     new_socket_manager := Raise (OtherException "TypeError");
     spot_websocket_client_in_globals := false |}.

(** The exchange [X] with another open-order endpoint. *)
Definition with_open_orders (open_orders : nat -> string -> res (list RawOrder))
    (X : Exchange) : Exchange :=
  {| client_get_symbol_ticker := client_get_symbol_ticker X;
     client_get_all_tickers := client_get_all_tickers X;
     client_get_ticker_price := client_get_ticker_price X;
     client_get_ticker := client_get_ticker X;
     client_get_avg_price := client_get_avg_price X;
     client_get_recent_trades := client_get_recent_trades X;
     client_get_klines := client_get_klines X;
     client_get_all_orders := client_get_all_orders X;
     client_get_open_orders := open_orders;
     client_get_account := client_get_account X;
     random_source := random_source X;
     strftime_localtime := strftime_localtime X;
     new_spot_websocket_client := new_spot_websocket_client X;
     new_socket_manager := new_socket_manager X;
     spot_websocket_client_in_globals := spot_websocket_client_in_globals X |}.

(** The request that [calculate_position_metrics] spends on the open orders:
    the first of the call when fills are given, the second otherwise. *)
Definition open_orders_request (manual_orders : option (list Order)) (st : State) : nat :=
  match manual_orders with
  | Some (_ :: _) => requests st
  | _ => S (requests st)
  end.

(** An open order as the exchange reports it. *)
Definition raw_open (id : Z) (order_side : string) (orig executed : Q) : RawOrder :=
  {| raw_orderId := id; raw_symbol := "BTCUSDT"; raw_side := order_side;
     raw_status := "NEW"; raw_price := 25000; raw_origQty := orig;
     raw_executedQty := executed; raw_cummulativeQuoteQty := 0;
     raw_time := 0; raw_commission := None |}.

(** One open SELL of 0.3 with 0.1 executed, and one open BUY. *)
Definition two_open_orders : Exchange :=
  {| client_get_symbol_ticker := no_ticker;
     client_get_all_tickers := no_tickers;
     client_get_ticker_price := fun _ _ => Raise connection_error;
     client_get_ticker := fun _ _ => Raise connection_error;
     client_get_avg_price := fun _ _ => Raise connection_error;
     client_get_recent_trades := fun _ _ => Raise connection_error;
     client_get_klines := fun _ _ => Raise connection_error;
     client_get_all_orders := no_orders;
     client_get_open_orders :=
       fun _ _ => Ok [raw_open 11 "SELL" (3 # 10) (1 # 10); raw_open 12 "BUY" 1 0];
     client_get_account := no_account;
     random_source := fun n => Z.of_nat n;
     strftime_localtime := fun _ => "2024-01-01 00:00:00";
     new_spot_websocket_client := Raise (OtherException "TypeError");
     new_socket_manager := Raise (OtherException "TypeError");
     spot_websocket_client_in_globals := false |}.

(** ** Manual data

    [_save_manual_data], which the three methods below call, writes the
    manual orders and the symbol mappings to a file and swallows its own
    errors: it changes neither the instance nor the value returned, and is
    left out. *)

(** [add_manual_order] *)
Definition add_manual_order (order : Order) (st : State) : bool * State :=
  let pair := symbol order in
  (true,
   with_manual_data
     (<[pair := (default [] (manual_orders st !! pair) ++ [order])%list]>
        (manual_orders st))
     (symbol_mappings st) st).

(** [delete_manual_order] *)
Definition delete_manual_order (pair : string) (order_id : Z) (st : State)
  : bool * State :=
  match manual_orders st !! pair with
  | Some orders =>
      (true,
       with_manual_data
         (<[pair := filter (fun o => orderId o <> order_id) orders]> (manual_orders st))
         (symbol_mappings st) st)
  | None => (false, st)
  end.

(** [d[k] = v] on an insertion-ordered dictionary: an existing key keeps its
    place, a new key goes last. *)
Fixpoint dict_set (k v : string) (l : list (string * string)) : list (string * string) :=
  match l with
  | [] => [(k, v)]
  | (k', v') :: l' =>
      if decide (k' = k) then (k, v) :: l' else (k', v') :: dict_set k v l'
  end.

(** [add_symbol_mapping] *)
Definition add_symbol_mapping (invalid_symbol valid_symbol : string) (st : State)
  : bool * State :=
  (true,
   with_manual_data (manual_orders st)
     (dict_set invalid_symbol valid_symbol (symbol_mappings st)) st).

(** A filled and a cancelled exchange order of XYZUSDT. *)
Definition xyz_exchange_orders : list RawOrder :=
  [ {| raw_orderId := 101; raw_symbol := "XYZUSDT"; raw_side := "BUY";
       raw_status := "FILLED"; raw_price := 3; raw_origQty := 4;
       raw_executedQty := 4; raw_cummulativeQuoteQty := 12;
       raw_time := 1700000000000; raw_commission := None |};
    {| raw_orderId := 102; raw_symbol := "XYZUSDT"; raw_side := "SELL";
       raw_status := "CANCELED"; raw_price := 5; raw_origQty := 1;
       raw_executedQty := 0; raw_cummulativeQuoteQty := 0;
       raw_time := 1700000100000; raw_commission := None |} ].

(** Every order query answers with these two orders. *)
Definition xyz_exchange : Exchange :=
  exchange_of no_ticker (fun _ _ _ => Ok xyz_exchange_orders) no_account no_tickers.

(** One BTC and 100 USDT. *)
Definition btc_and_usdt : list RawBalance :=
  [ {| raw_asset := "BTC"; raw_free := 1; raw_locked := 0 |};
    {| raw_asset := "USDT"; raw_free := 100; raw_locked := 0 |} ].

(** The account holds one BTC and 100 USDT; the listing of all tickers
    fails with [e]. *)
Definition tickers_fail_with (e : exn) : Exchange :=
  exchange_of no_ticker no_orders (fun _ => Ok btc_and_usdt) (fun _ => Raise e).

(** The account query is rate limited [k] times and then answers [account]. *)
Definition account_limited (k : nat) (account : list RawBalance) : Exchange :=
  exchange_of no_ticker no_orders
    (fun n => if (n <? k)%nat then Raise (BinanceAPIException RATE_LIMITED)
              else Ok account)
    no_tickers.

(** The endpoints behind [fallback_methods], in their order. *)
Definition fallback_endpoints (X : Exchange) : list (nat -> string -> res Q) :=
  [ client_get_ticker_price X; client_get_ticker X; client_get_avg_price X;
    client_get_recent_trades X; client_get_klines X ].

(** The symbol is unknown to the ticker endpoint; the first two fallback
    endpoints are down and the average-price endpoint answers 7/2. *)
Definition average_price_only : Exchange :=
  {| client_get_symbol_ticker := fun _ _ => Raise (BinanceAPIException INVALID_SYMBOL);
     client_get_all_tickers := no_tickers;
     client_get_ticker_price := fun _ _ => Raise connection_error;
     client_get_ticker := fun _ _ => Raise connection_error;
     client_get_avg_price := fun _ _ => Ok (7 # 2);
     client_get_recent_trades := fun _ _ => Raise connection_error;
     client_get_klines := fun _ _ => Raise connection_error;
     client_get_all_orders := no_orders;
     client_get_open_orders := fun _ _ => Ok [];
     client_get_account := no_account;
     random_source := fun n => Z.of_nat n;
     strftime_localtime := fun _ => "2024-01-01 00:00:00";
     new_spot_websocket_client := Raise (OtherException "TypeError");
     new_socket_manager := Raise (OtherException "TypeError");
     spot_websocket_client_in_globals := false |}.

(** A price of BTCUSDT cached at time 0, seen at time 100. *)
Definition stale_cache_state : State :=
  with_world 0 100 [] 0 []
    (with_ticker_cache {[ "BTCUSDT" := (0%Q, 48000%Q) ]} initial_state).

(** * Properties *)

(** ** Numbers *)

Lemma Qltb_lt x y : Qltb x y = true <-> (x < y)%Q.
Proof.
  unfold Qltb. rewrite negb_true_iff. split.
  - intros H. apply Qnot_le_lt. intros Hle. apply Qle_bool_iff in Hle. congruence.
  - intros H. destruct (Qle_bool y x) eqn:E; [|done].
    apply Qle_bool_iff in E. exfalso. exact (Qlt_not_le _ _ H E).
Qed.

Lemma Qltb_ge x y : Qltb x y = false <-> (y <= x)%Q.
Proof.
  unfold Qltb. rewrite negb_false_iff. apply Qle_bool_iff.
Qed.

(** ** The monad *)

Lemma bind_ok {A B} (m : M A) (k : A -> M B) st a st' :
  m st = (Ok a, st') -> bind m k st = k a st'.
Proof. intros H. unfold bind. by rewrite H. Qed.

Lemma bind_raise {A B} (m : M A) (k : A -> M B) st e st' :
  m st = (Raise e, st') -> bind m k st = (Raise e, st').
Proof. intros H. unfold bind. by rewrite H. Qed.

Lemma try_except_ok {A} (m : M A) h st a st' :
  m st = (Ok a, st') -> try_except m h st = (Ok a, st').
Proof. intros H. unfold try_except. by rewrite H. Qed.

Lemma try_except_raise {A} (m : M A) h st e st' :
  m st = (Raise e, st') -> try_except m h st = h e st'.
Proof. intros H. unfold try_except. by rewrite H. Qed.

(** ** Price retrieval *)

Lemma randint_range X a b st :
  (a <= b)%Z ->
  exists w, (a <= w <= b)%Z /\
    randint X a b st =
      (Ok w, with_world (requests st) (now st) (slept st) (S (draws st))
                        (delivered st) st).
Proof.
  intros Hab. eexists. split; [|reflexivity].
  pose proof (Z.mod_pos_bound (random_source X (draws st)) (b - a + 1)) as Hm.
  lia.
Qed.

(** The earlier definition serves a cached price that is less than 5
    seconds old, without any request and without changing the state. *)
Lemma first_def_cache_hit X symbol st cache_time price :
  ticker_cache st !! symbol = Some (cache_time, price) ->
  (now st - cache_time < 5)%Q ->
  FirstDef.get_symbol_price X symbol true st = (Ok price, st).
Proof.
  intros Hc Hfresh. unfold FirstDef.get_symbol_price, FirstDef.fresh_cached. rewrite Hc.
  apply Qltb_lt in Hfresh. by rewrite Hfresh.
Qed.

(** The definition in force never reads the cache: whatever the cache
    holds, the answer is the exchange's. *)
Lemma get_symbol_price_is_request X symbol st :
  get_symbol_price X symbol st =
    (client_get_symbol_ticker X (requests st) (get_mapped_symbol st symbol),
     with_world (S (requests st)) (now st) (slept st) (draws st) (delivered st) st).
Proof.
  unfold get_symbol_price, try_except, bind, gets, request, raise.
  by destruct (client_get_symbol_ticker X (requests st) (get_mapped_symbol st symbol)).
Qed.

(** C1, at the failing input: the price source answers 50000 and then goes
    down; two calls of [get_symbol_price] are made at the same instant.  The
    cache-aware earlier definition would serve the second call from its
    cache, but the definition in force caches nothing on the first call and
    raises the source's failure on the second. *)
Theorem get_symbol_price_second_call_raises :
  let first := get_symbol_price fails_after_first "BTCUSDT" initial_state in
  let second := get_symbol_price fails_after_first "BTCUSDT" first.2 in
  first.1 = Ok 50000%Q /\
  ticker_cache first.2 = ∅ /\
  second.1 = Raise connection_error /\
  (FirstDef.get_symbol_price fails_after_first "BTCUSDT" true
     (FirstDef.get_symbol_price fails_after_first "BTCUSDT" true initial_state).2).1
    = Ok 50000%Q.
Proof. vm_compute. done. Qed.

Lemma fresh_cached_none symbol use_cache st :
  ticker_cache st !! symbol = None ->
  FirstDef.fresh_cached symbol use_cache st = None.
Proof.
  intros H. unfold FirstDef.fresh_cached. rewrite H. by destruct use_cache.
Qed.

(** C2, a code bug.  The method callers reach, the definition in force, has
    no branch for RATE_LIMITED: the failure surfaces at once, after one
    request and without any sleep, so nothing is retried.  The sleep and the
    retry are written in the earlier definition, which the later one
    replaces; and there the retry cannot succeed either, for after its one
    sleep of 11 to 30 seconds the call [self.get_symbol_price(symbol,
    use_cache)] reaches the one-parameter definition and raises
    [TypeError]. *)
Theorem rate_limited_price_is_not_retried X symbol use_cache st :
  ticker_cache st !! symbol = None ->
  (forall pair, client_get_symbol_ticker X (requests st) pair
                = Raise (BinanceAPIException RATE_LIMITED)) ->
  let run := get_symbol_price X symbol st in
  let earlier := FirstDef.get_symbol_price X symbol use_cache st in
  run.1 = Raise (BinanceAPIException RATE_LIMITED) /\
  slept run.2 = slept st /\
  requests run.2 = S (requests st) /\
  earlier.1 = Raise arity_error /\
  (exists wait, slept earlier.2 = wait :: slept st /\ (11 <= wait <= 30)%Z) /\
  requests earlier.2 = S (requests st).
Proof.
  intros Hcache Hlimited run earlier.
  assert (Hrun : run = (Raise (BinanceAPIException RATE_LIMITED),
                        with_world (S (requests st)) (now st) (slept st) (draws st)
                          (delivered st) st)).
  { subst run. by rewrite get_symbol_price_is_request, Hlimited. }
  set (st1 := with_world (S (requests st)) (now st) (slept st) (draws st)
                (delivered st) st).
  destruct (randint_range X 1 20 st1 ltac:(lia)) as (w & Hw & Hrand).
  assert (Hearlier : earlier
                     = (Raise arity_error,
                        with_world (requests st1) (now st1 + inject_Z (10 + w))
                          ((10 + w)%Z :: slept st1) (S (draws st1)) (delivered st1)
                          (with_world (requests st1) (now st1) (slept st1)
                             (S (draws st1)) (delivered st1) st1))).
  { subst earlier. unfold FirstDef.get_symbol_price.
    rewrite fresh_cached_none by done.
    unfold try_except at 1. unfold bind at 1. unfold request at 1.
    rewrite Hlimited. fold st1.
    rewrite decide_False by done. rewrite decide_True by done.
    unfold FirstDef.cached_or.
    change (ticker_cache st1) with (ticker_cache st). rewrite Hcache.
    by rewrite (bind_ok _ _ _ _ _ Hrand). }
  rewrite Hrun, Hearlier. simpl.
  repeat split; try done. exists (10 + w)%Z. split; [done|lia].
Qed.

Lemma rate_limited_price_is_not_retried_witness :
  (get_symbol_price (limited_then 1 7) "BTCUSDT" initial_state).1
  = Raise (BinanceAPIException RATE_LIMITED) /\
  slept (get_symbol_price (limited_then 1 7) "BTCUSDT" initial_state).2
  = slept initial_state /\
  requests (get_symbol_price (limited_then 1 7) "BTCUSDT" initial_state).2
  = S (requests initial_state) /\
  (FirstDef.get_symbol_price (limited_then 1 7) "BTCUSDT" true initial_state).1
  = Raise arity_error /\
  (exists wait,
     slept (FirstDef.get_symbol_price (limited_then 1 7) "BTCUSDT" true initial_state).2
     = wait :: slept initial_state /\ (11 <= wait <= 30)%Z) /\
  requests (FirstDef.get_symbol_price (limited_then 1 7) "BTCUSDT" true initial_state).2
  = S (requests initial_state).
Proof.
  apply (rate_limited_price_is_not_retried (limited_then 1 7) "BTCUSDT" true
           initial_state); reflexivity.
Defined.

(** At the failing input the exchange is rate limited once and would have
    answered 7 to a second request: the claimed retry would have returned
    the price. *)
Lemma limited_once_would_answer :
  client_get_symbol_ticker (limited_then 1 7) 0 "BTCUSDT"
  = Raise (BinanceAPIException RATE_LIMITED) /\
  client_get_symbol_ticker (limited_then 1 7) 1 "BTCUSDT" = Ok 7%Q.
Proof. done. Qed.

(** ** Average price and position metrics *)

Lemma try_except_default {A} (m : M A) (d : A) st :
  exists a st', try_except m (fun _ => ret d) st = (Ok a, st').
Proof.
  unfold try_except. destruct (m st) as [[a|e] st']; eauto.
Qed.

Lemma buy_cost_acc (orders : list Order) (acc : Q) :
  (foldl (fun acc o => if is_buy o then (acc + cummulativeQuoteQty o)%Q else acc) acc orders
   == acc + Qsum (map cummulativeQuoteQty (filter (fun o => is_buy o = true) orders)))%Q.
Proof.
  revert acc. induction orders as [|o orders IH]; intros acc; simpl.
  - ring.
  - rewrite filter_cons. destruct (is_buy o) eqn:E.
    + rewrite decide_True by done. rewrite IH. simpl. ring.
    + rewrite decide_False by done. apply IH.
Qed.

Lemma buy_qty_acc (orders : list Order) (acc : Q) :
  (foldl (fun acc o => if is_buy o then (acc + executedQty o)%Q else acc) acc orders
   == acc + Qsum (map executedQty (filter (fun o => is_buy o = true) orders)))%Q.
Proof.
  revert acc. induction orders as [|o orders IH]; intros acc; simpl.
  - ring.
  - rewrite filter_cons. destruct (is_buy o) eqn:E.
    + rewrite decide_True by done. rewrite IH. simpl. ring.
    + rewrite decide_False by done. apply IH.
Qed.

(** [calculate_average_buy_price] is the BUY cost over the BUY quantity, and
    0 when there is no BUY quantity. *)
Lemma calculate_average_buy_price_spec (orders : list Order) :
  let buys := filter (fun o => is_buy o = true) orders in
  let cost := Qsum (map cummulativeQuoteQty buys) in
  let qty := Qsum (map executedQty buys) in
  (calculate_average_buy_price orders
   == if Qeq_bool qty 0 then 0 else cost / qty)%Q.
Proof.
  intros buys cost qty. unfold calculate_average_buy_price.
  assert (Hc : (buy_cost orders == cost)%Q).
  { unfold buy_cost. rewrite buy_cost_acc. fold buys. fold cost. ring. }
  assert (Hq : (buy_qty orders == qty)%Q).
  { unfold buy_qty. rewrite buy_qty_acc. fold buys. fold qty. ring. }
  destruct (Qeq_bool (buy_qty orders) 0) eqn:E1; destruct (Qeq_bool qty 0) eqn:E2.
  - reflexivity.
  - apply Qeq_bool_iff in E1. rewrite Hq in E1. apply Qeq_bool_iff in E1. congruence.
  - apply Qeq_bool_iff in E2. rewrite <- Hq in E2. apply Qeq_bool_iff in E2. congruence.
  - by rewrite Hc, Hq.
Qed.

Lemma scenario_totals :
  accumulate (fun _ cost => cost * (1 # 1000))%Q cummulativeQuoteQty scenario_fills
  = (9000 # 1, 1 # 2, 31000000 # 1000000)%Q.
Proof. vm_compute. reflexivity. Qed.

(** C3, as amended: the average buy price of a fill list is the BUY cost
    over the BUY quantity (0 without BUY quantity).  For the scenario's
    fills and a current price of 22000, [calculate_average_buy_price] gives
    20000, and the position metrics have holdings 0.5, total cost 9000,
    profit 2000 and profit percentage 200/9 (about 22.22); their
    [avg_buy_price] field is the net cost over the net quantity, 18000. *)
Theorem scenario_position_metrics X st :
  let m := (calculate_position_metrics X "BTCUSDT" None (Some 22000%Q)
              (Some scenario_fills) st).1 in
  (forall orders,
     let buys := filter (fun o => is_buy o = true) orders in
     calculate_average_buy_price orders
     == if Qeq_bool (Qsum (map executedQty buys)) 0 then 0
        else Qsum (map cummulativeQuoteQty buys) / Qsum (map executedQty buys))%Q /\
  (calculate_average_buy_price scenario_fills == 20000)%Q /\
  (pm_holdings m == 1 # 2)%Q /\
  (pm_total_cost m == 9000)%Q /\
  (pm_avg_buy_price m == 18000)%Q /\
  (pm_pnl_amount m == 2000)%Q /\
  (pm_pnl_percent m == 200 # 9)%Q /\
  (2222 # 100 < pm_pnl_percent m < 2223 # 100)%Q /\
  pm_error m = None.
Proof.
  intros m. split; [exact calculate_average_buy_price_spec|].
  split; [vm_compute; reflexivity|].
  subst m. repeat apply conj.
  all: unfold calculate_position_metrics, position_metrics_body;
    cbn [scenario_fills default];
    unfold bind at 1; unfold ret at 1; unfold bind at 1;
    destruct (try_except_default (get_open_orders X "BTCUSDT") [] st)
      as (open_orders & st' & Hopen);
    rewrite Hopen; cbn [fst snd id];
    fold scenario_fills; rewrite scenario_totals;
    unfold bind, ret, gets; vm_compute; reflexivity.
Qed.

(** C3 as stated fails on the [avg_buy_price] of the position metrics: for
    the scenario it is 18000, not the BUY-only 20000. *)
Lemma scenario_avg_buy_price_is_net :
  let m := (calculate_position_metrics fails_after_first "BTCUSDT" None
              (Some 22000%Q) (Some scenario_fills) initial_state).1 in
  (pm_avg_buy_price m == 18000)%Q /\ ~ (pm_avg_buy_price m == 20000)%Q.
Proof. vm_compute. split; congruence. Qed.

(** ** Order history *)

(** What the probe of a pair answers, by the exchange's reply. *)
Lemma pair_has_orders_reply X pair st :
  (pair_has_orders X pair st).1 =
    Ok (match client_get_all_orders X (requests st) pair (Some 1%Z) with
        | Ok [] => false
        | Ok (_ :: _) => true
        | Raise _ => has_manual_orders pair st
        end).
Proof.
  unfold pair_has_orders, try_except, bind, request, ret, gets.
  destruct (client_get_all_orders X (requests st) pair (Some 1%Z)) as [[|o l]|e];
    reflexivity.
Qed.

(** C4, at the failing input: XYZUSDT has a manual fill, and the exchange
    answers every order query with an empty list.  The probe succeeds with
    zero orders, the manual fills are not consulted, and the consolidated
    history leaves the pair out, although [get_order_history] of the pair
    returns the manual fill. *)
Theorem empty_probe_leaves_out_manual_pair :
  has_manual_orders "XYZUSDT" xyz_manual_state = true /\
  (pair_has_orders quiet_exchange "XYZUSDT" xyz_manual_state).1 = Ok false /\
  (get_consolidated_order_history quiet_exchange "XYZ" "USDT" xyz_manual_state).1
  = Ok [] /\
  (get_order_history quiet_exchange "XYZUSDT" xyz_manual_state).1 = Ok [xyz_fill].
Proof. vm_compute. done. Qed.

(** C5, as amended: when the order query raises, [get_order_history]
    returns the symbol's manual fills (the empty list when there are none)
    if the exception is a [BinanceAPIException], whatever its code, and lets
    any other exception propagate. *)
Theorem get_order_history_on_error X symbol st e :
  client_get_all_orders X (requests st) (get_mapped_symbol st symbol) None = Raise e ->
  (get_order_history X symbol st).1 =
    match e with
    | BinanceAPIException _ => Ok (default [] (manual_orders st !! symbol))
    | _ => Raise e
    end.
Proof.
  intros Hraise.
  unfold get_order_history, bind, gets, try_except, request. simpl.
  rewrite Hraise. fold (get_manual_orders st symbol).
  destruct e as [code| | |msg]; try reflexivity.
  destruct (get_manual_orders st symbol) as [|o l]; simpl.
  - by rewrite andb_false_r.
  - by destruct (bool_decide (code = INVALID_SYMBOL)).
Qed.

Lemma get_order_history_on_error_witness :
  (get_order_history (orders_fail_with (BinanceAPIException (-1003))) "XYZUSDT"
     xyz_manual_state).1
  = Ok (default [] (manual_orders xyz_manual_state !! "XYZUSDT")).
Proof.
  apply (get_order_history_on_error (orders_fail_with (BinanceAPIException (-1003)))
           "XYZUSDT" xyz_manual_state (BinanceAPIException (-1003))).
  reflexivity.
Defined.

(** C5 as stated fails: a connection error of the order query propagates
    out of [get_order_history], manual fills or not. *)
Lemma get_order_history_propagates_connection_error :
  (get_order_history (orders_fail_with connection_error) "XYZUSDT" xyz_manual_state).1
  = Raise connection_error /\
  get_manual_orders xyz_manual_state "XYZUSDT" = [xyz_fill].
Proof. vm_compute. done. Qed.

(** ** The two definitions of the consolidated history *)

Lemma probe_pairs_ext (probe1 probe2 : string -> M bool) asset quotes :
  (forall pair st, probe1 pair st = probe2 pair st) ->
  forall all_pairs st,
    probe_pairs probe1 asset quotes all_pairs st
    = probe_pairs probe2 asset quotes all_pairs st.
Proof.
  intros Hext. induction quotes as [|quote quotes IH]; intros all_pairs st; simpl.
  - reflexivity.
  - unfold bind. rewrite Hext.
    destruct (probe2 (asset +:+ quote) st) as [[has|e] st']; [|reflexivity].
    apply IH.
Qed.

(** C8, as amended: the two definitions return the same result and leave
    the same state whenever the one-order probe raises nothing but
    [BinanceAPIException]. *)
Theorem consolidated_definitions_agree X asset base_currency st :
  (forall n pair e,
     client_get_all_orders X n pair (Some 1%Z) = Raise e ->
     exists code, e = BinanceAPIException code) ->
  FirstDef.get_consolidated_order_history X asset base_currency st
  = get_consolidated_order_history X asset base_currency st.
Proof.
  intros Hapi.
  unfold FirstDef.get_consolidated_order_history, get_consolidated_order_history.
  unfold bind.
  rewrite (probe_pairs_ext (FirstDef.pair_has_orders X) (pair_has_orders X)).
  - reflexivity.
  - intros pair st0.
    unfold FirstDef.pair_has_orders, pair_has_orders, try_except, bind, request.
    destruct (client_get_all_orders X (requests st0) pair (Some 1%Z)) as [l|e] eqn:E;
      [reflexivity|].
    destruct (Hapi _ _ _ E) as [code ->]. reflexivity.
Qed.

Lemma consolidated_definitions_agree_witness :
  FirstDef.get_consolidated_order_history
    (probe_fails_with (BinanceAPIException INVALID_SYMBOL)) "XYZ" "USDT" xyz_manual_state
  = get_consolidated_order_history
      (probe_fails_with (BinanceAPIException INVALID_SYMBOL)) "XYZ" "USDT" xyz_manual_state.
Proof.
  apply (consolidated_definitions_agree
           (probe_fails_with (BinanceAPIException INVALID_SYMBOL)) "XYZ" "USDT"
           xyz_manual_state).
  intros n pair e H. simpl in H. inversion H. by eexists.
Defined.

(** C8 as stated fails: when the probe raises a connection error, the
    earlier definition propagates it, while the definition in force takes
    the pair from the manual fills and returns its history. *)
Lemma consolidated_definitions_differ :
  (FirstDef.get_consolidated_order_history (probe_fails_with connection_error)
     "XYZ" "USDT" xyz_manual_state).1 = Raise connection_error /\
  (get_consolidated_order_history (probe_fails_with connection_error)
     "XYZ" "USDT" xyz_manual_state).1
  = Ok [with_normalized (price xyz_fill) (cummulativeQuoteQty xyz_fill) "USDT"
          (with_pair_info "XYZ" "USDT" "XYZUSDT" xyz_fill)].
Proof. vm_compute. done. Qed.

(** ** The boundary of the metric computations *)

Lemma bind_ok_inv {A B} (m : M A) (k : A -> M B) st b st' :
  bind m k st = (Ok b, st') ->
  exists a st1, m st = (Ok a, st1) /\ k a st1 = (Ok b, st').
Proof.
  unfold bind. destruct (m st) as [[a|e] st1]; [eauto|discriminate].
Qed.

Lemma position_metrics_body_no_error X symbol include_orders manual_price
    manual_orders st metrics st' :
  position_metrics_body X symbol include_orders manual_price manual_orders st
  = (Ok metrics, st') ->
  pm_error metrics = None.
Proof.
  unfold position_metrics_body. intros H.
  apply bind_ok_inv in H as (fetched & st1 & _ & H).
  apply bind_ok_inv in H as (open_orders & st2 & _ & H).
  destruct (accumulate _ _ _) as [[total_cost total_qty] total_fees].
  apply bind_ok_inv in H as (current_price & st3 & _ & H).
  apply bind_ok_inv in H as (mapped & st4 & _ & H).
  unfold ret in H. by inversion H.
Qed.

Lemma consolidated_metrics_body_no_error X asset base_currency st metrics st' :
  consolidated_metrics_body X asset base_currency st = (Ok metrics, st') ->
  cm_error metrics = None.
Proof.
  unfold consolidated_metrics_body. intros H.
  apply bind_ok_inv in H as (all_orders & st1 & _ & H).
  apply bind_ok_inv in H as (fees & st2 & _ & H).
  destruct (accumulate _ _ _) as [[total_cost total_qty] total_fees].
  apply bind_ok_inv in H as (current_price & st3 & _ & H).
  unfold ret in H. by inversion H.
Qed.

(** C7: neither metrics method raises.  When the computation inside the
    [try] block raises [e], the method returns the dictionary whose numeric
    fields are all zero and whose [error] is [str(e)]; otherwise it returns
    what the block computed, which has no [error]. *)
Theorem metrics_methods_never_raise X :
  (forall symbol include_orders manual_price manual_orders st,
     let m := (calculate_position_metrics X symbol include_orders manual_price
                 manual_orders st).1 in
     match (position_metrics_body X symbol include_orders manual_price
              manual_orders st).1 with
     | Ok metrics => m = metrics /\ pm_error m = None
     | Raise e =>
         pm_error m = Some (str_exn e) /\
         pm_current_price m = 0%Q /\ pm_holdings m = 0%Q /\ pm_available m = 0%Q /\
         pm_locked m = 0%Q /\ pm_avg_buy_price m = 0%Q /\
         pm_break_even_price m = 0%Q /\ pm_total_cost m = 0%Q /\
         pm_current_value m = 0%Q /\ pm_pnl_amount m = 0%Q /\ pm_pnl_percent m = 0%Q
     end) /\
  (forall asset base_currency st,
     let m := (calculate_consolidated_position_metrics X asset base_currency st).1 in
     match (consolidated_metrics_body X asset base_currency st).1 with
     | Ok metrics => m = metrics /\ cm_error m = None
     | Raise e =>
         cm_error m = Some (str_exn e) /\
         cm_current_price m = 0%Q /\ cm_holdings m = 0%Q /\ cm_avg_buy_price m = 0%Q /\
         cm_break_even_price m = 0%Q /\ cm_total_cost m = 0%Q /\
         cm_current_value m = 0%Q /\ cm_pnl_amount m = 0%Q /\ cm_pnl_percent m = 0%Q /\
         cm_order_count m = 0%nat
     end).
Proof.
  split.
  - intros symbol include_orders manual_price manual_orders st m. subst m.
    unfold calculate_position_metrics.
    destruct (position_metrics_body X symbol include_orders manual_price
                manual_orders st) as [[metrics|e] st'] eqn:Hbody; simpl.
    + split; [reflexivity|]. by eapply position_metrics_body_no_error.
    + repeat split.
  - intros asset base_currency st m. subst m.
    unfold calculate_consolidated_position_metrics.
    destruct (consolidated_metrics_body X asset base_currency st)
      as [[metrics|e] st'] eqn:Hbody; simpl.
    + split; [reflexivity|]. by eapply consolidated_metrics_body_no_error.
    + repeat split.
Qed.

(** A connection error of the order query reaches the boundary of both
    methods and comes back as an [error] field. *)
Lemma metrics_report_connection_error :
  pm_error (calculate_position_metrics (orders_fail_with connection_error)
              "XYZUSDT" None None None xyz_manual_state).1
  = Some "ConnectionError" /\
  cm_error (calculate_consolidated_position_metrics
              (orders_fail_with connection_error) "XYZ" "USDT" xyz_manual_state).1
  = Some "ConnectionError".
Proof. vm_compute. done. Qed.

(** ** Closing the sockets *)

Lemma poll_price_exits X iterations symbol callback st :
  price_callbacks st !! symbol = None ->
  poll_price X iterations symbol callback st = (Ok O, st).
Proof.
  intros Hnone. destruct iterations as [|iterations]; [reflexivity|].
  simpl. unfold poll_guard. rewrite Hnone.
  rewrite bool_decide_eq_false_2; [reflexivity|]. by intros [? ?].
Qed.




(** With a manager present, unsubscribing one symbol ends its polling loop
    in the same way. *)
Lemma stop_symbol_ticker_websocket_ends_polling X symbol conn_key manager st :
  socket_connections st !! symbol = Some conn_key ->
  socket_manager st = Some manager ->
  exists st',
    stop_symbol_ticker_websocket symbol st = (Ok tt, st') /\
    forall iterations callback,
      poll_price X iterations symbol callback st' = (Ok O, st').
Proof.
  intros Hconn Hmanager.
  unfold stop_symbol_ticker_websocket, bind, gets. rewrite Hconn, Hmanager.
  unfold try_except, may_raise, modify, ret, raise.
  destruct (starts_with_poll conn_key); [|destruct (has_stop_socket manager);
    [destruct (stop_raises manager)|]];
    (eexists; split; [reflexivity|]; intros; apply poll_price_exits; simpl;
     apply lookup_delete_eq).
Qed.

(** ** Balances: failures of the account query *)





(** The state after a rate-limited account request and the sleep that
    follows it. *)
Lemma get_account_info_retry X depth st :
  client_get_account X (requests st) = Raise (BinanceAPIException RATE_LIMITED) ->
  exists wait, (31 <= wait <= 60)%Z /\
    get_account_info X (S depth) st
    = get_account_info X depth
        (with_world (S (requests st)) (now st + inject_Z wait) (wait :: slept st)
           (S (draws st)) (delivered st) st).
Proof.
  intros Hlim.
  exists (30 + (1 + random_source X (draws st) mod (30 - 1 + 1)))%Z. split.
  - pose proof (Z.mod_pos_bound (random_source X (draws st)) (30 - 1 + 1)). lia.
  - simpl. unfold try_except at 1. unfold request at 1. rewrite Hlim. reflexivity.
Qed.




(** ** Sorting *)

Section SortProperties.
Context {A K : Type} (ltb : K -> K -> bool) (key : A -> K).
Hypothesis ltb_asym : forall a b, ltb a b = true -> ltb b a = false.

Local Abbreviation before := (may_precede ltb key).

Lemma insert_reverse_perm x l : insert_reverse ltb key x l ≡ₚ x :: l.
Proof.
  induction l as [|y l IH]; simpl; [done|].
  destruct (ltb (key x) (key y)); [|done].
  rewrite IH. apply Permutation_swap.
Qed.

Lemma sort_reverse_perm l : sort_reverse ltb key l ≡ₚ l.
Proof.
  induction l as [|x l IH]; simpl; [done|].
  rewrite insert_reverse_perm. by rewrite IH.
Qed.

Lemma insert_reverse_hd x y l :
  before y x -> HdRel before y l -> HdRel before y (insert_reverse ltb key x l).
Proof.
  intros Hyx Hhd. destruct l as [|z l]; simpl.
  - by constructor.
  - inversion Hhd; subst. destruct (ltb (key x) (key z)); by constructor.
Qed.

Lemma insert_reverse_sorted x l :
  Sorted before l -> Sorted before (insert_reverse ltb key x l).
Proof.
  induction l as [|y l IH]; intros Hsorted; simpl.
  - by repeat constructor.
  - inversion Hsorted; subst.
    destruct (ltb (key x) (key y)) eqn:E.
    + constructor; [by apply IH|]. apply insert_reverse_hd; [|done].
      unfold may_precede. by apply ltb_asym.
    + constructor; [done|]. by constructor.
Qed.

Lemma sort_reverse_sorted l : Sorted before (sort_reverse ltb key l).
Proof.
  induction l as [|x l IH]; simpl; [constructor|].
  by apply insert_reverse_sorted.
Qed.

End SortProperties.

Lemma Sorted_weaken {A} (R1 R2 : A -> A -> Prop) l :
  (forall a b, R1 a b -> R2 a b) -> Sorted R1 l -> Sorted R2 l.
Proof.
  intros Himpl. induction 1 as [|a l Hsorted IH Hhd]; constructor; [done|].
  destruct Hhd; constructor. by apply Himpl.
Qed.

Lemma Qltb_asym a b : Qltb a b = true -> Qltb b a = false.
Proof.
  intros H. apply Qltb_lt in H. apply Qltb_ge. by apply Qlt_le_weak.
Qed.

(** The list [sort_by_usd_value] returns is in descending order of
    [usd_value], and holds the same entries. *)
Lemma sort_by_usd_value_descending balances :
  StronglySorted (fun a b => (usd_value b <= usd_value a)%Q)
                 (sort_by_usd_value balances).
Proof.
  apply Sorted.Sorted_StronglySorted.
  - intros a b c Hab Hbc. by eapply Qle_trans.
  - eapply Sorted_weaken; [|apply (sort_reverse_sorted Qltb usd_value Qltb_asym)].
    intros a b H. by apply Qltb_ge.
Qed.

Lemma sort_by_usd_value_elem b balances :
  b ∈ sort_by_usd_value balances <-> b ∈ balances.
Proof.
  unfold sort_by_usd_value. by rewrite sort_reverse_perm.
Qed.

(** ** Balances: the listing *)

(** Without a quote chain the value stays at its initial 0. *)
Lemma compute_usd_value_no_chain prices name amount :
  ~ has_quote_chain prices name ->
  compute_usd_value prices name amount = 0%Q.
Proof.
  intros Hno. unfold compute_usd_value.
  rewrite bool_decide_eq_false_2 by (intros H; apply Hno; by left).
  assert (Hstable : forall quote, quote ∈ ["USDT"; "BUSD"; "USDC"] ->
                                  prices !! (name +:+ quote) = None).
  { intros quote Hq. destruct (prices !! (name +:+ quote)) eqn:E; [|done].
    exfalso. apply Hno. right. left. exists quote. by rewrite E. }
  unfold quote_assets. simpl.
  rewrite !Hstable by set_solver.
  destruct (prices !! (name +:+ "BTC")) as [p|] eqn:Ebtc.
  { change (bool_decide ("BTC" ∈ stablecoins)) with false.
    change (bool_decide ("BTC" = "BTC")) with true.
    change (bool_decide ("BTC" = "ETH")) with false. cbv iota.
    destruct (prices !! "BTCUSDT") as [b|] eqn:Eusdt; [|done].
    exfalso. apply Hno. right. right. left. by rewrite Ebtc, Eusdt. }
  destruct (prices !! (name +:+ "ETH")) as [p|] eqn:Eeth; [|done].
  change (bool_decide ("ETH" ∈ stablecoins)) with false.
  change (bool_decide ("ETH" = "BTC")) with false.
  change (bool_decide ("ETH" = "ETH")) with true. cbv iota.
  destruct (prices !! "ETHUSDT") as [b|] eqn:Eusdt; [|done].
  exfalso. apply Hno. right. right. right. by rewrite Eeth, Eusdt.
Qed.

(** What an appended entry says about the balance it was made from. *)
Lemma balance_entry_some st prices min_value raw b :
  balance_entry st prices min_value raw = Some b ->
  (0 < total b)%Q /\ (min_value <= usd_value b)%Q /\
  asset b = raw_asset raw /\
  total b = (raw_free raw + raw_locked raw)%Q /\
  total b = (free b + locked b)%Q /\
  usd_value b = compute_usd_value prices (asset b) (total b).
Proof.
  unfold balance_entry.
  destruct (Qle_bool (raw_free raw + raw_locked raw) 0) eqn:Etotal; [done|].
  destruct (Qltb _ min_value) eqn:Emin; [done|].
  intros H. inversion H; subst; clear H. simpl. repeat split.
  - apply Qnot_le_lt. intros Hle. apply Qle_bool_iff in Hle. congruence.
  - by apply Qltb_ge.
Qed.

Lemma entries_well_listed st prices min_value account :
  well_listed prices min_value
    (sort_by_usd_value (omap (balance_entry st prices min_value) account)).
Proof.
  split; [|apply sort_by_usd_value_descending].
  intros b Hb. apply (proj1 (sort_by_usd_value_elem _ _)) in Hb.
  apply list_elem_of_omap in Hb as (raw & Hraw & Hentry).
  apply balance_entry_some in Hentry as (Hpos & Hmin & _ & _ & Htotal & Husd).
  repeat split; try done.
  intros Hno. rewrite Husd. by apply compute_usd_value_no_chain.
Qed.

Lemma list_balances_ok X depth min_value st account tickers :
  client_get_account X (requests st) = Ok account ->
  client_get_all_tickers X (S (requests st)) = Ok tickers ->
  let st' := with_world (S (S (requests st))) (now st) (slept st) (draws st)
                        (delivered st) st in
  list_balances X (S depth) min_value st
  = (Ok (sort_by_usd_value
           (omap (balance_entry st' (price_table tickers) min_value) account)), st').
Proof.
  intros Haccount Htickers st'.
  unfold list_balances. unfold bind at 1. simpl.
  unfold try_except at 1. unfold request at 1. rewrite Haccount.
  unfold bind at 1. unfold all_prices, try_except, bind, request. simpl.
  rewrite Htickers. reflexivity.
Qed.

Lemma list_balances_ok_inv X depth min_value st balances st' :
  list_balances X depth min_value st = (Ok balances, st') ->
  exists account prices st1,
    balances = sort_by_usd_value (omap (balance_entry st1 prices min_value) account).
Proof.
  unfold list_balances. intros H.
  apply bind_ok_inv in H as (account & st1 & _ & H).
  apply bind_ok_inv in H as (prices & st2 & _ & H).
  apply bind_ok_inv in H as (st3 & st4 & _ & H).
  unfold ret in H. inversion H. by exists account, prices, st3.
Qed.

(** Every list [get_spot_balances] returns, on whatever path, is well
    listed for some price table. *)
Lemma get_spot_balances_sound X min_value depth :
  forall st balances st',
    get_spot_balances X depth min_value st = (Ok balances, st') ->
    exists prices, well_listed prices min_value balances.
Proof.
  assert (Hnil : exists prices : gmap string Q, well_listed prices min_value []).
  { exists ∅. split; [|constructor]. intros b Hb. by apply elem_of_nil in Hb. }
  induction depth as [|depth IH]; intros st balances st'; simpl.
  - unfold raise. discriminate.
  - unfold try_except.
    destruct (list_balances X (S depth) min_value st) as [[listed|e] st1] eqn:Hrun.
    + intros H. inversion H; subst.
      apply list_balances_ok_inv in Hrun as (account & prices & st2 & ->).
      exists prices. apply entries_well_listed.
    + destruct e as [code| | |msg]; try (unfold raise; discriminate).
      destruct (decide (code = IP_BANNED)).
      { unfold ret. intros H. inversion H; subst. exact Hnil. }
      destruct (decide (code = RATE_LIMITED)).
      * unfold bind, randint, sleep, modify. apply IH.
      * unfold ret. intros H. inversion H; subst. exact Hnil.
Qed.

(** C10: every list [get_spot_balances] returns holds only entries with a
    strictly positive total (free plus locked) and a USD value of at least
    [min_value], gives USD value 0 to an asset without a quote chain in the
    prices it was valued with, and is in descending order of [usd_value];
    and when the account and the ticker listing are answered, such a list is
    returned: it is valued with the listed prices and each of its entries
    comes from a balance of the account. *)
Theorem get_spot_balances_listing X depth min_value st :
  (forall balances st',
     get_spot_balances X depth min_value st = (Ok balances, st') ->
     exists prices, well_listed prices min_value balances) /\
  (forall account tickers,
     client_get_account X (requests st) = Ok account ->
     client_get_all_tickers X (S (requests st)) = Ok tickers ->
     exists balances st',
       get_spot_balances X (S depth) min_value st = (Ok balances, st') /\
       well_listed (price_table tickers) min_value balances /\
       forall b, b ∈ balances ->
         exists raw, raw ∈ account /\ asset b = raw_asset raw /\
                     total b = (raw_free raw + raw_locked raw)%Q).
Proof.
  split; [apply get_spot_balances_sound|].
  intros account tickers Haccount Htickers.
  pose proof (list_balances_ok X depth min_value st account tickers Haccount Htickers)
    as Hrun. simpl in Hrun.
  eexists _, _. split; [|split].
  - simpl. unfold try_except at 1. rewrite Hrun. reflexivity.
  - apply entries_well_listed.
  - intros b Hb. apply (proj1 (sort_by_usd_value_elem _ _)) in Hb.
    apply list_elem_of_omap in Hb as (raw & Hraw & Hentry).
    apply balance_entry_some in Hentry as (_ & _ & Hasset & Htotal & _ & _).
    by exists raw.
Qed.

Lemma get_spot_balances_listing_witness :
  exists balances st',
    get_spot_balances portfolio 1 0 initial_state = (Ok balances, st') /\
    well_listed (price_table [("BTCUSDT", 50000%Q); ("ALTBTC", 1 # 1000)]) 0 balances /\
    forall b, b ∈ balances ->
      exists raw,
        raw ∈ [ {| raw_asset := "XYZ"; raw_free := 5; raw_locked := 0 |};
                {| raw_asset := "USDT"; raw_free := 100; raw_locked := 0 |};
                {| raw_asset := "DUST"; raw_free := 0; raw_locked := 0 |};
                {| raw_asset := "BTC"; raw_free := 1; raw_locked := 1 # 2 |};
                {| raw_asset := "ALT"; raw_free := 1000; raw_locked := 0 |} ] /\
        asset b = raw_asset raw /\
        total b = (raw_free raw + raw_locked raw)%Q.
Proof.
  apply (proj2 (get_spot_balances_listing portfolio 0 0 initial_state));
    reflexivity.
Defined.

(** The listing of the sample account: BTC through its USDT pair, ALT
    through BTC, the stablecoin at face value, the unlisted asset at 0, and
    the empty balance left out. *)
Lemma portfolio_listing :
  map (fun b => (asset b, Qred (usd_value b)))
      (match (get_spot_balances portfolio 1 0 initial_state).1 with
       | Ok balances => balances
       | Raise _ => []
       end)
  = [("BTC", 75000%Q); ("ALT", 50000%Q); ("USDT", 100%Q); ("XYZ", 0%Q)].
Proof. vm_compute. reflexivity. Qed.

(** * Further properties *)

(** ** Calculator *)

Lemma foldl_if_sum {A} (P : A -> bool) (f : A -> Q) (l : list A) (acc : Q) :
  (foldl (fun acc o => if P o then (acc + f o)%Q else acc) acc l
   == acc + Qsum (map f (filter (fun o => P o = true) l)))%Q.
Proof.
  revert acc. induction l as [|o l IH]; intros acc; simpl.
  - ring.
  - rewrite filter_cons. destruct (P o) eqn:E.
    + rewrite decide_True by done. rewrite IH. simpl. ring.
    + rewrite decide_False by done. apply IH.
Qed.

Lemma Qsum_nonneg (l : list Q) : Forall (fun x => (0 <= x)%Q) l -> (0 <= Qsum l)%Q.
Proof.
  induction 1 as [|x l Hx Hl IH]; simpl; [apply Qle_refl|].
  replace 0%Q with (0 + 0)%Q by reflexivity. by apply Qplus_le_compat.
Qed.

Lemma Qeq_bool_false_neq (x y : Q) : Qeq_bool x y = false -> ~ (x == y)%Q.
Proof. intros H Heq. apply Qeq_bool_iff in Heq. congruence. Qed.

Lemma buy_fees_are_cost_times_rate (orders : list Order) (fee_rate : Q) :
  (foldl (fun acc o => if is_buy o then acc + cummulativeQuoteQty o * fee_rate else acc)
         0 orders == buy_cost orders * fee_rate)%Q.
Proof.
  rewrite (foldl_if_sum is_buy (fun o => cummulativeQuoteQty o * fee_rate)%Q).
  unfold buy_cost. rewrite (foldl_if_sum is_buy cummulativeQuoteQty).
  induction (filter (fun o => is_buy o = true) orders) as [|o l IH]; simpl; [ring|].
  assert (Hl : (Qsum (map (fun o => cummulativeQuoteQty o * fee_rate) l)
                == Qsum (map cummulativeQuoteQty l) * fee_rate)%Q).
  { rewrite !Qplus_0_l in IH. exact IH. }
  rewrite Hl. ring.
Qed.

(** The break-even price is the average buy price raised by the fee rate:
    the fees of the BUY orders are their cost times [fee_rate]. *)
Theorem break_even_is_average_with_fee (orders : list Order) (fee_rate : Q) :
  (calculate_break_even_price orders fee_rate
   == calculate_average_buy_price orders * (1 + fee_rate))%Q.
Proof.
  unfold calculate_break_even_price, calculate_average_buy_price.
  destruct (Qeq_bool (buy_qty orders) 0) eqn:Eqty; [ring|].
  apply Qeq_bool_false_neq in Eqty.
  rewrite buy_fees_are_cost_times_rate. field. exact Eqty.
Qed.

Lemma buy_totals_nonneg (orders : list Order) :
  Forall (fun o => (0 <= cummulativeQuoteQty o)%Q /\ (0 <= executedQty o)%Q) orders ->
  (0 <= buy_cost orders)%Q /\ (0 <= buy_qty orders)%Q.
Proof.
  intros Hall. unfold buy_cost, buy_qty.
  rewrite (foldl_if_sum is_buy cummulativeQuoteQty), (foldl_if_sum is_buy executedQty).
  rewrite !Qplus_0_l.
  split; apply Qsum_nonneg, Forall_fmap, Forall_forall; intros o Ho;
    apply list_elem_of_filter in Ho as [_ Ho];
    rewrite Forall_forall in Hall; apply (Hall o Ho).
Qed.

Lemma average_buy_price_nonneg (orders : list Order) :
  Forall (fun o => (0 <= cummulativeQuoteQty o)%Q /\ (0 <= executedQty o)%Q) orders ->
  (0 <= calculate_average_buy_price orders)%Q.
Proof.
  intros Hall. destruct (buy_totals_nonneg orders Hall) as [Hcost Hqty].
  unfold calculate_average_buy_price.
  destruct (Qeq_bool (buy_qty orders) 0) eqn:Eqty; [apply Qle_refl|].
  apply Qeq_bool_false_neq in Eqty.
  apply Qle_shift_div_l.
  - apply Qle_lteq in Hqty as [Hlt|Heq]; [done|]. exfalso. apply Eqty. by symmetry.
  - rewrite Qmult_0_l. exact Hcost.
Qed.

(** With a fee rate that is not negative and orders whose costs and
    quantities are not negative, the break-even price is not below the
    average buy price. *)
Theorem break_even_not_below_average (orders : list Order) (fee_rate : Q) :
  (0 <= fee_rate)%Q ->
  Forall (fun o => (0 <= cummulativeQuoteQty o)%Q /\ (0 <= executedQty o)%Q) orders ->
  (calculate_average_buy_price orders <= calculate_break_even_price orders fee_rate)%Q.
Proof.
  intros Hfee Hall.
  pose proof (average_buy_price_nonneg orders Hall) as Havg.
  pose proof (Qmult_le_0_compat _ _ Havg Hfee) as Hprod.
  assert (E : (calculate_break_even_price orders fee_rate
               == calculate_average_buy_price orders
                  + calculate_average_buy_price orders * fee_rate)%Q).
  { unfold calculate_break_even_price, calculate_average_buy_price.
    destruct (Qeq_bool (buy_qty orders) 0) eqn:Eqty; [ring|].
    apply Qeq_bool_false_neq in Eqty.
    rewrite buy_fees_are_cost_times_rate. field. exact Eqty. }
  rewrite E. set (average := calculate_average_buy_price orders) in *.
  apply Qle_trans with (average + 0)%Q.
  - rewrite Qplus_0_r. apply Qle_refl.
  - apply Qplus_le_compat; [apply Qle_refl|exact Hprod].
Qed.

Lemma break_even_not_below_average_witness :
  (calculate_average_buy_price scenario_fills
   <= calculate_break_even_price scenario_fills (1 # 1000))%Q.
Proof.
  apply (break_even_not_below_average scenario_fills (1 # 1000)).
  - vm_compute. discriminate.
  - repeat constructor; vm_compute; discriminate.
Defined.

(** [calculate_pnl] guards its division by testing the average price and
    the quantity, not their product.  On binary64 floats it returns [(0, 0)]
    when either is zero, raises nothing but [ZeroDivisionError], and raises
    it exactly when both are non-zero and their product is zero, which
    underflow makes possible: with both equal to 2^-700 the product rounds to
    zero.  Otherwise the amount is the value minus the cost basis and the
    percentage is their ratio times 100. *)
Theorem calculate_pnl_zero_division :
  (forall current_price avg_buy_price quantity,
     calculate_pnl current_price avg_buy_price quantity = Raise ZeroDivisionError <->
     PrimFloat.eqb avg_buy_price 0%float = false /\
     PrimFloat.eqb quantity 0%float = false /\
     PrimFloat.eqb (PrimFloat.mul avg_buy_price quantity) 0%float = true) /\
  (forall current_price avg_buy_price quantity e,
     calculate_pnl current_price avg_buy_price quantity = Raise e ->
     e = ZeroDivisionError) /\
  (forall current_price avg_buy_price quantity,
     PrimFloat.eqb avg_buy_price 0%float = true \/
     PrimFloat.eqb quantity 0%float = true ->
     calculate_pnl current_price avg_buy_price quantity = Ok (0%float, 0%float)) /\
  (forall current_price avg_buy_price quantity,
     PrimFloat.eqb avg_buy_price 0%float = false ->
     PrimFloat.eqb quantity 0%float = false ->
     PrimFloat.eqb (PrimFloat.mul avg_buy_price quantity) 0%float = false ->
     let cost_basis := PrimFloat.mul avg_buy_price quantity in
     let pnl_amount := PrimFloat.sub (PrimFloat.mul current_price quantity) cost_basis in
     calculate_pnl current_price avg_buy_price quantity
     = Ok (pnl_amount, PrimFloat.mul (PrimFloat.div pnl_amount cost_basis) 100%float)) /\
  (forall current_price,
     PrimFloat.eqb 0x1p-700%float 0%float = false /\
     calculate_pnl current_price 0x1p-700%float 0x1p-700%float
     = Raise ZeroDivisionError).
Proof.
  repeat apply conj.
  - intros c a q. unfold calculate_pnl, float_div.
    destruct (PrimFloat.eqb a 0) eqn:Ea; simpl.
    { split; [discriminate|]. intros (H & _). discriminate. }
    destruct (PrimFloat.eqb q 0) eqn:Eq; simpl.
    { split; [discriminate|]. intros (_ & H & _). discriminate. }
    destruct (PrimFloat.eqb (PrimFloat.mul a q) 0) eqn:Ebasis.
    + by split.
    + split; [discriminate|]. intros (_ & _ & H). discriminate.
  - intros c a q e. unfold calculate_pnl, float_div.
    destruct (PrimFloat.eqb a 0 || PrimFloat.eqb q 0); [discriminate|].
    destruct (PrimFloat.eqb (PrimFloat.mul a q) 0); [|discriminate].
    by inversion 1.
  - intros c a q H. unfold calculate_pnl.
    destruct H as [-> | ->]; [done|]. by rewrite orb_true_r.
  - intros c a q Ea Eq Ebasis. cbv zeta. unfold calculate_pnl, float_div.
    by rewrite Ea, Eq, Ebasis.
  - intros c. split; reflexivity.
Qed.

Lemma Qsum_perm (l1 l2 : list Q) : l1 ≡ₚ l2 -> (Qsum l1 == Qsum l2)%Q.
Proof.
  induction 1 as [|x l1 l2 _ IH|x y l|l1 l2 l3 _ IH1 _ IH2]; simpl.
  - reflexivity.
  - by rewrite IH.
  - ring.
  - by rewrite IH1.
Qed.

Lemma summary_totals (positions : list Position) (acc : Q * Q) :
  let totals :=
    foldl (fun acc position =>
             ((acc.1 + default 0 (position_total_cost position))%Q,
              (acc.2 + default 0 (position_current_value position))%Q))
          acc positions in
  (totals.1 == acc.1 + Qsum (map (fun p => default 0 (position_total_cost p)) positions))%Q /\
  (totals.2 == acc.2 + Qsum (map (fun p => default 0 (position_current_value p)) positions))%Q.
Proof.
  revert acc. induction positions as [|p positions IH]; intros acc; simpl.
  - split; ring.
  - destruct (IH ((acc.1 + default 0 (position_total_cost p))%Q,
                  (acc.2 + default 0 (position_current_value p))%Q)) as [Hc Hv].
    simpl in Hc, Hv. split; [rewrite Hc|rewrite Hv]; ring.
Qed.

Lemma summary_cost_value (positions : list Position) :
  let summary := calculate_portfolio_summary positions in
  (ps_total_cost summary
   == Qsum (map (fun p => default 0 (position_total_cost p)) positions))%Q /\
  (ps_total_value summary
   == Qsum (map (fun p => default 0 (position_current_value p)) positions))%Q.
Proof.
  unfold calculate_portfolio_summary. simpl.
  destruct (summary_totals positions (0%Q, 0%Q)) as [Hc Hv]. simpl in Hc, Hv.
  split; [rewrite Hc|rewrite Hv]; ring.
Qed.

(** The summary adds up the costs and the values of the positions, a
    missing key counting as 0, and its profit is the sum of the positions'
    value minus cost. *)
Theorem portfolio_summary_sums (positions : list Position) :
  let cost := fun p => default 0%Q (position_total_cost p) in
  let value := fun p => default 0%Q (position_current_value p) in
  let summary := calculate_portfolio_summary positions in
  (ps_total_cost summary == Qsum (map cost positions))%Q /\
  (ps_total_value summary == Qsum (map value positions))%Q /\
  (ps_pnl_amount summary == Qsum (map (fun p => value p - cost p) positions))%Q.
Proof.
  intros cost value summary.
  destruct (summary_cost_value positions) as [Hc Hv].
  split; [exact Hc|]. split; [exact Hv|].
  assert (Hp : (ps_pnl_amount summary
                == ps_total_value summary - ps_total_cost summary)%Q) by reflexivity.
  rewrite Hp. subst summary. rewrite Hc, Hv. clear Hc Hv Hp. subst cost value.
  induction positions as [|p positions IH]; simpl; [ring|].
  rewrite <- IH. ring.
Qed.

Lemma Qltb_proper (x x' y y' : Q) :
  (x == x')%Q -> (y == y')%Q -> Qltb x y = Qltb x' y'.
Proof.
  intros Hx Hy. unfold Qltb. f_equal.
  destruct (Qle_bool y x) eqn:E1; destruct (Qle_bool y' x') eqn:E2; try done.
  - apply Qle_bool_iff in E1. rewrite Hx, Hy in E1. apply Qle_bool_iff in E1. congruence.
  - apply Qle_bool_iff in E2. rewrite <- Hx, <- Hy in E2. apply Qle_bool_iff in E2.
    congruence.
Qed.

(** The summary does not depend on the order of the positions. *)
Theorem portfolio_summary_permutation (positions1 positions2 : list Position) :
  positions1 ≡ₚ positions2 ->
  let summary1 := calculate_portfolio_summary positions1 in
  let summary2 := calculate_portfolio_summary positions2 in
  (ps_total_cost summary1 == ps_total_cost summary2)%Q /\
  (ps_total_value summary1 == ps_total_value summary2)%Q /\
  (ps_pnl_amount summary1 == ps_pnl_amount summary2)%Q /\
  (ps_pnl_percent summary1 == ps_pnl_percent summary2)%Q.
Proof.
  intros Hperm summary1 summary2.
  destruct (summary_cost_value positions1) as (Hc1 & Hv1).
  destruct (summary_cost_value positions2) as (Hc2 & Hv2).
  assert (Hc : (ps_total_cost summary1 == ps_total_cost summary2)%Q).
  { subst summary1 summary2. rewrite Hc1, Hc2. apply Qsum_perm. by apply fmap_Permutation. }
  assert (Hv : (ps_total_value summary1 == ps_total_value summary2)%Q).
  { subst summary1 summary2. rewrite Hv1, Hv2. apply Qsum_perm. by apply fmap_Permutation. }
  assert (Hp : (ps_pnl_amount summary1 == ps_pnl_amount summary2)%Q).
  { subst summary1 summary2. unfold calculate_portfolio_summary in *. simpl in *.
    by rewrite Hc, Hv. }
  repeat split; try done.
  subst summary1 summary2. unfold calculate_portfolio_summary in *. simpl in *.
  rewrite (Qltb_proper _ 0 _ _ (Qeq_refl 0) Hc).
  destruct (Qltb 0 _); [|reflexivity]. by rewrite Hp, Hc.
Qed.

Lemma portfolio_summary_permutation_witness :
  (ps_total_cost (calculate_portfolio_summary [priced_position; costless_position])
   == ps_total_cost (calculate_portfolio_summary [costless_position; priced_position]))%Q /\
  (ps_total_value (calculate_portfolio_summary [priced_position; costless_position])
   == ps_total_value (calculate_portfolio_summary [costless_position; priced_position]))%Q /\
  (ps_pnl_amount (calculate_portfolio_summary [priced_position; costless_position])
   == ps_pnl_amount (calculate_portfolio_summary [costless_position; priced_position]))%Q /\
  (ps_pnl_percent (calculate_portfolio_summary [priced_position; costless_position])
   == ps_pnl_percent (calculate_portfolio_summary [costless_position; priced_position]))%Q.
Proof.
  apply (portfolio_summary_permutation [priced_position; costless_position]
           [costless_position; priced_position]).
  apply Permutation_swap.
Defined.

(** ** Position metrics from given fills *)

Lemma accumulate_acc (fee_of : Order -> Q -> Q) (cost_of : Order -> Q)
    (orders : list Order) (acc : Q * Q * Q) :
  let step := fun '(total_cost, total_qty, total_fees) order =>
    let qty := executedQty order in
    let cost := cost_of order in
    let total_fees := (total_fees + fee_of order cost)%Q in
    if is_buy order then ((total_cost + cost)%Q, (total_qty + qty)%Q, total_fees)
    else if is_sell order then ((total_cost - cost)%Q, (total_qty - qty)%Q, total_fees)
    else (total_cost, total_qty, total_fees) in
  let totals := foldl step acc orders in
  let buys := filter (fun o => is_buy o = true) orders in
  let sells := filter (fun o => is_sell o = true) orders in
  (totals.1.1 == acc.1.1 + Qsum (map cost_of buys) - Qsum (map cost_of sells))%Q /\
  (totals.1.2 == acc.1.2 + Qsum (map executedQty buys) - Qsum (map executedQty sells))%Q.
Proof.
  revert acc. induction orders as [|o orders IH]; intros [[tc tq] tf]; simpl.
  - split; ring.
  - rewrite !filter_cons.
    assert (Hexcl : is_buy o = true -> is_sell o = false).
    { unfold is_buy, is_sell. intros Hb. apply bool_decide_eq_true in Hb.
      apply bool_decide_eq_false. rewrite Hb. discriminate. }
    destruct (is_buy o) eqn:Eb.
    + rewrite (Hexcl eq_refl). rewrite decide_True by done. rewrite decide_False by done.
      destruct (IH ((tc + cost_of o)%Q, (tq + executedQty o)%Q,
                    (tf + fee_of o (cost_of o))%Q)) as [Hc Hq].
      simpl in *. split; [rewrite Hc|rewrite Hq]; ring.
    + rewrite decide_False by done. destruct (is_sell o) eqn:Es.
      * rewrite decide_True by done.
        destruct (IH ((tc - cost_of o)%Q, (tq - executedQty o)%Q,
                      (tf + fee_of o (cost_of o))%Q)) as [Hc Hq].
        simpl in *. split; [rewrite Hc|rewrite Hq]; ring.
      * rewrite decide_False by done.
        destruct (IH (tc, tq, (tf + fee_of o (cost_of o))%Q)) as [Hc Hq].
        simpl in *. split; [rewrite Hc|rewrite Hq]; ring.
Qed.







(** ** Open orders in the position metrics *)

Lemma open_orders_step X symbol st :
  try_except (get_open_orders X symbol) (fun _ => ret []) st =
    (Ok (match client_get_open_orders X (requests st) (get_mapped_symbol st symbol) with
         | Ok open_orders => map (api_open_order X) open_orders
         | Raise _ => []
         end),
     with_world (S (requests st)) (now st) (slept st) (draws st) (delivered st) st).
Proof.
  unfold get_open_orders, try_except, bind, gets, request, ret, raise. simpl.
  destruct (client_get_open_orders X (requests st) (get_mapped_symbol st symbol))
    as [open_orders|e]; [reflexivity|].
  destruct e as [code| | |msg]; try reflexivity.
  by destruct (decide (code = INVALID_SYMBOL)).
Qed.

Lemma get_order_history_state X symbol st :
  (get_order_history X symbol st).2
  = with_world (S (requests st)) (now st) (slept st) (draws st) (delivered st) st.
Proof.
  unfold get_order_history, bind, gets, try_except, request, ret, raise. simpl.
  destruct (client_get_all_orders X (requests st) (get_mapped_symbol st symbol) None)
    as [orders|e]; [reflexivity|].
  destruct e as [code| | |msg]; try reflexivity.
  by destruct (bool_decide (code = INVALID_SYMBOL) && _).
Qed.

Lemma history_fetch_state X symbol st :
  let run :=
    try_except
      (let* orders := get_order_history X symbol in
       ret (orders, forallb (fun o => default false (isManual o)) orders))
      (fun e =>
         match e with
         | BinanceAPIException code =>
             if decide (code = INVALID_SYMBOL)
             then let* orders := gets (fun st => get_manual_orders st symbol) in
                  ret (orders, true)
             else raise e
         | _ => raise e
         end) st in
  run.2 = with_world (S (requests st)) (now st) (slept st) (draws st) (delivered st) st.
Proof.
  intros run. subst run. unfold try_except at 1. unfold bind at 1.
  pose proof (get_order_history_state X symbol st) as Hstate.
  destruct (get_order_history X symbol st) as [[orders|e] st1]; simpl in Hstate;
    subst st1; [reflexivity|].
  destruct e as [code| | |msg]; try reflexivity.
  by destruct (decide (code = INVALID_SYMBOL)).
Qed.

(** Every result is either the error dictionary or carries the open orders
    listed by the exchange at the request spent on them. *)
Lemma position_metrics_open_orders X symbol include_orders manual_price manual_orders st :
  let listed :=
    match client_get_open_orders X (open_orders_request manual_orders st)
            (get_mapped_symbol st symbol) with
    | Ok open_orders => map (api_open_order X) open_orders
    | Raise _ => []
    end in
  let m := (calculate_position_metrics X symbol include_orders manual_price
              manual_orders st).1 in
  (exists e, m = position_error symbol e) \/
  (pm_error m = None /\
   pm_open_orders m = listed /\
   pm_locked m = locked_quantity listed /\
   pm_available m = (pm_holdings m - locked_quantity listed)%Q).
Proof.
  intros listed m.
  remember (calculate_position_metrics X symbol include_orders manual_price
              manual_orders st) as run eqn:Hrun.
  unfold calculate_position_metrics, position_metrics_body in Hrun.
  unfold bind at 1 in Hrun.
  match type of Hrun with
  | context [(if ?provided then ?given else ?fetch) st] =>
      assert (Hfetch : exists r st1,
                 (if provided then given else fetch) st = (r, st1) /\
                 requests st1 = open_orders_request manual_orders st /\
                 get_mapped_symbol st1 symbol = get_mapped_symbol st symbol)
  end.
  { pose proof (history_fetch_state X symbol st) as Hstate. cbv zeta in Hstate.
    clear Hrun.
    destruct manual_orders as [[|o os]|]; cbn [default];
      [ | by eexists _, st | ];
      match goal with
      | |- context [try_except ?m ?h st] =>
          destruct (try_except m h st) as [r st1]; simpl in Hstate; subst st1;
          by eexists _, _
      end. }
  destruct Hfetch as (r & st1 & Hfetch & Hrequest & Hmapped). rewrite Hfetch in Hrun.
  destruct r as [fetched|e]; [|left; exists e; by subst run m].
  unfold bind at 1 in Hrun. rewrite open_orders_step, Hrequest, Hmapped in Hrun.
  fold listed in Hrun.
  destruct (accumulate _ _ _) as [[total_cost total_qty] total_fees].
  unfold bind at 1 in Hrun.
  destruct manual_price as [p|].
  - right. unfold bind, gets, ret in Hrun. by subst run m.
  - match type of Hrun with
    | context [try_except ?price ?handler ?s] =>
        destruct (try_except price handler s) as [[current_price|e] st3]
    end; [|left; exists e; by subst run m].
    right. unfold bind, gets, ret in Hrun. by subst run m.
Qed.

(** The open-order endpoint is felt only through the orders it lists. *)
Lemma metrics_with_open_orders X open_orders symbol include_orders manual_price
    manual_orders st :
  let listed (reply : res (list RawOrder)) :=
    match reply with
    | Ok open_orders => map (api_open_order X) open_orders
    | Raise _ => []
    end in
  listed (client_get_open_orders X (open_orders_request manual_orders st)
            (get_mapped_symbol st symbol))
  = listed (open_orders (open_orders_request manual_orders st)
              (get_mapped_symbol st symbol)) ->
  calculate_position_metrics X symbol include_orders manual_price manual_orders st
  = calculate_position_metrics (with_open_orders open_orders X) symbol include_orders
      manual_price manual_orders st.
Proof.
  intros listed Hlisted. subst listed. cbv beta in Hlisted.
  remember (calculate_position_metrics X symbol include_orders manual_price
              manual_orders st) as run eqn:Hrun.
  remember (calculate_position_metrics (with_open_orders open_orders X) symbol
              include_orders manual_price manual_orders st) as run' eqn:Hrun'.
  unfold calculate_position_metrics, position_metrics_body in Hrun, Hrun'.
  change (get_order_history (with_open_orders open_orders X))
    with (get_order_history X) in Hrun'.
  change (get_symbol_price (with_open_orders open_orders X))
    with (get_symbol_price X) in Hrun'.
  unfold bind at 1 in Hrun. unfold bind at 1 in Hrun'.
  match type of Hrun with
  | context [(if ?provided then ?given else ?fetch) st] =>
      assert (Hfetch : exists r st1,
                 (if provided then given else fetch) st = (r, st1) /\
                 requests st1 = open_orders_request manual_orders st /\
                 get_mapped_symbol st1 symbol = get_mapped_symbol st symbol)
  end.
  { pose proof (history_fetch_state X symbol st) as Hstate. cbv zeta in Hstate.
    clear Hrun Hrun'.
    destruct manual_orders as [[|o os]|]; cbn [default];
      [ | by eexists _, st | ];
      match goal with
      | |- context [try_except ?m ?h st] =>
          destruct (try_except m h st) as [r st1]; simpl in Hstate; subst st1;
          by eexists _, _
      end. }
  destruct Hfetch as (r & st1 & Hfetch & Hrequest & Hmapped).
  rewrite Hfetch in Hrun, Hrun'.
  destruct r as [fetched|e]; [|by subst run run'].
  unfold bind at 1 in Hrun. unfold bind at 1 in Hrun'.
  rewrite open_orders_step, Hrequest, Hmapped in Hrun, Hrun'.
  cbn [client_get_open_orders with_open_orders] in Hrun'.
  change (api_open_order (with_open_orders open_orders X))
    with (api_open_order X) in Hrun'.
  rewrite <- Hlisted in Hrun'.
  by subst run run'.
Qed.

(** A failure of the open-order query, of whatever kind, is never the cause
    of an error: every call, with the price and the fills given or fetched,
    returns exactly the dictionary it returns when the exchange reports no
    open order, so that no open order is listed, nothing is locked, and the
    whole holdings are available. *)
Theorem open_orders_failure_is_tolerated X symbol include_orders manual_price manual_orders
    st e :
  client_get_open_orders X (open_orders_request manual_orders st)
    (get_mapped_symbol st symbol) = Raise e ->
  let m := (calculate_position_metrics X symbol include_orders manual_price
              manual_orders st).1 in
  let reference :=
    (calculate_position_metrics (with_open_orders (fun _ _ => Ok []) X) symbol
       include_orders manual_price manual_orders st).1 in
  m = reference /\
  pm_open_orders m = [] /\
  pm_locked m = 0%Q /\
  (pm_available m == pm_holdings m)%Q.
Proof.
  intros Hfail m reference. split.
  { subst m reference. f_equal. apply metrics_with_open_orders. by rewrite Hfail. }
  pose proof (position_metrics_open_orders X symbol include_orders manual_price
                manual_orders st) as Hx.
  cbv zeta in Hx. fold m in Hx. rewrite Hfail in Hx.
  destruct Hx as [[e' ->]|(_ & Hopen & Hlocked & Havailable)].
  - simpl. repeat split; reflexivity.
  - rewrite Hopen, Hlocked, Havailable. repeat split; [reflexivity..|].
    unfold locked_quantity. simpl. ring.
Qed.

Lemma open_orders_failure_is_tolerated_witness :
  (calculate_position_metrics open_orders_down "BTCUSDT" None (Some 22000%Q) None
     initial_state).1
  = (calculate_position_metrics (with_open_orders (fun _ _ => Ok []) open_orders_down)
       "BTCUSDT" None (Some 22000%Q) None initial_state).1 /\
  pm_open_orders (calculate_position_metrics open_orders_down "BTCUSDT" None
                    (Some 22000%Q) None initial_state).1 = [] /\
  pm_locked (calculate_position_metrics open_orders_down "BTCUSDT" None (Some 22000%Q)
               None initial_state).1 = 0%Q /\
  (pm_available (calculate_position_metrics open_orders_down "BTCUSDT" None
                   (Some 22000%Q) None initial_state).1
   == pm_holdings (calculate_position_metrics open_orders_down "BTCUSDT" None
                     (Some 22000%Q) None initial_state).1)%Q.
Proof.
  apply (open_orders_failure_is_tolerated open_orders_down "BTCUSDT" None (Some 22000%Q)
           None initial_state connection_error).
  reflexivity.
Defined.

(** Whenever metrics are returned without an error and the open-order query
    was answered, the open orders listed are those of the answer, the locked
    quantity is what remains to be executed of the open SELL orders (open BUY
    orders lock nothing), and what is available is the holdings minus the
    locked quantity. *)
Theorem locked_quantity_counts_open_sells X symbol include_orders manual_price
    manual_orders st open_orders :
  client_get_open_orders X (open_orders_request manual_orders st)
    (get_mapped_symbol st symbol) = Ok open_orders ->
  let m := (calculate_position_metrics X symbol include_orders manual_price
              manual_orders st).1 in
  let sells := filter (fun r => raw_side r = "SELL") open_orders in
  pm_error m = None ->
  pm_open_orders m = map (api_open_order X) open_orders /\
  (pm_locked m == Qsum (map (fun r => raw_origQty r - raw_executedQty r) sells))%Q /\
  (pm_available m == pm_holdings m - pm_locked m)%Q.
Proof.
  intros Hreply m sells Herror.
  pose proof (position_metrics_open_orders X symbol include_orders manual_price
                manual_orders st) as Hx.
  cbv zeta in Hx. fold m in Hx. rewrite Hreply in Hx.
  destruct Hx as [[e' He']|(_ & Hopen & Hlocked & Havailable)].
  { rewrite He' in Herror. discriminate. }
  split; [exact Hopen|]. split.
  - rewrite Hlocked. unfold locked_quantity.
    rewrite (foldl_if_sum (fun o => bool_decide (open_side o = "SELL")) open_lockedQty).
    rewrite Qplus_0_l. subst sells. clear.
    induction open_orders as [|r l IH]; simpl; [reflexivity|].
    rewrite !filter_cons. simpl.
    destruct (decide (raw_side r = "SELL")) as [Hs|Hs].
    + rewrite decide_True by (by apply bool_decide_eq_true). simpl. by rewrite IH.
    + rewrite decide_False by (by rewrite bool_decide_eq_true). exact IH.
  - rewrite Havailable, Hlocked. reflexivity.
Qed.

Lemma locked_quantity_counts_open_sells_witness :
  pm_open_orders (calculate_position_metrics two_open_orders "BTCUSDT" None
                    (Some 22000%Q) None initial_state).1
  = map (api_open_order two_open_orders)
      [raw_open 11 "SELL" (3 # 10) (1 # 10); raw_open 12 "BUY" 1 0] /\
  (pm_locked (calculate_position_metrics two_open_orders "BTCUSDT" None (Some 22000%Q)
                None initial_state).1
   == Qsum (map (fun r => raw_origQty r - raw_executedQty r)
              (filter (fun r => raw_side r = "SELL")
                 [raw_open 11 "SELL" (3 # 10) (1 # 10); raw_open 12 "BUY" 1 0])))%Q /\
  (pm_available (calculate_position_metrics two_open_orders "BTCUSDT" None
                   (Some 22000%Q) None initial_state).1
   == pm_holdings (calculate_position_metrics two_open_orders "BTCUSDT" None
                     (Some 22000%Q) None initial_state).1
      - pm_locked (calculate_position_metrics two_open_orders "BTCUSDT" None
                     (Some 22000%Q) None initial_state).1)%Q.
Proof.
  apply (locked_quantity_counts_open_sells two_open_orders "BTCUSDT" None (Some 22000%Q)
           None initial_state).
  - reflexivity.
  - reflexivity.
Defined.

(** ** Stable sorting *)

Section SortStability.
Context {A K : Type} (ltb : K -> K -> bool) (key : A -> K).
Hypothesis ltb_trans :
  forall a b c, ltb a b = false -> ltb b c = false -> ltb a c = false.

Lemma insert_reverse_front x l :
  Forall (fun y => ltb (key x) (key y) = false) l ->
  insert_reverse ltb key x l = x :: l.
Proof.
  intros Hall. destruct l as [|y l]; [reflexivity|].
  simpl. inversion Hall as [|? ? Hy _]; subst. by rewrite Hy.
Qed.

(** A stable sort commutes with filtering. *)
Lemma insert_reverse_filter (P : A -> Prop) `{!forall x, Decision (P x)} x l :
  StronglySorted (may_precede ltb key) l ->
  filter P (insert_reverse ltb key x l)
  = if decide (P x) then insert_reverse ltb key x (filter P l) else filter P l.
Proof.
  induction l as [|y l IH]; intros Hsorted; simpl.
  - rewrite filter_cons, filter_nil. by destruct (decide (P x)).
  - apply StronglySorted_inv in Hsorted as [Hl Hy].
    destruct (ltb (key x) (key y)) eqn:E.
    + rewrite !filter_cons, (IH Hl).
      destruct (decide (P x)), (decide (P y)); simpl; try done. by rewrite E.
    + rewrite !(filter_cons _ x). destruct (decide (P x)); [|done].
      rewrite insert_reverse_front; [done|].
      apply Forall_forall. intros z Hz. apply list_elem_of_filter in Hz as [_ Hz].
      apply elem_of_cons in Hz as [->|Hz]; [done|].
      rewrite Forall_forall in Hy. eapply ltb_trans; [exact E|]. by apply Hy.
Qed.

Lemma sort_reverse_strongly_sorted l :
  (forall a b, ltb a b = true -> ltb b a = false) ->
  StronglySorted (may_precede ltb key) (sort_reverse ltb key l).
Proof.
  intros Hasym. apply Sorted.Sorted_StronglySorted.
  - intros a b c. unfold may_precede. apply ltb_trans.
  - by apply sort_reverse_sorted.
Qed.

Lemma sort_reverse_filter (P : A -> Prop) `{!forall x, Decision (P x)} l :
  (forall a b, ltb a b = true -> ltb b a = false) ->
  filter P (sort_reverse ltb key l) = sort_reverse ltb key (filter P l).
Proof.
  intros Hasym. induction l as [|x l IH]; simpl; [done|].
  rewrite insert_reverse_filter by by apply sort_reverse_strongly_sorted.
  rewrite filter_cons, IH. by destruct (decide (P x)).
Qed.

End SortStability.

Lemma string_ltb_false a b : String.ltb a b = false <-> String.leb b a = true.
Proof.
  unfold String.ltb, String.leb. rewrite (String.compare_antisym b a).
  destruct (String.compare a b); simpl; split; congruence.
Qed.

Lemma string_ltb_asym a b : String.ltb a b = true -> String.ltb b a = false.
Proof.
  unfold String.ltb. rewrite (String.compare_antisym a b).
  destruct (String.compare b a); simpl; congruence.
Qed.

Lemma string_ltb_trans a b c :
  String.ltb a b = false -> String.ltb b c = false -> String.ltb a c = false.
Proof.
  rewrite !string_ltb_false. intros Hba Hcb.
  apply Is_true_true in Hba, Hcb. apply Is_true_true.
  exact (transitivity (R := String.le) Hcb Hba).
Qed.

(** ** Order history and manual data *)

Lemma StronglySorted_weaken {A} (R1 R2 : A -> A -> Prop) l :
  (forall a b, R1 a b -> R2 a b) -> StronglySorted R1 l -> StronglySorted R2 l.
Proof.
  intros Himpl. induction 1 as [|a l Hl IH Ha]; constructor; [done|].
  eapply Forall_impl; [exact Ha|]. intros b. apply Himpl.
Qed.

Lemma sort_by_time_sorted orders :
  StronglySorted (fun a b => String.leb (time_key b) (time_key a) = true)
                 (sort_by_time orders).
Proof.
  eapply StronglySorted_weaken;
    [|exact (sort_reverse_strongly_sorted String.ltb time_key string_ltb_trans orders
               string_ltb_asym)].
  intros a b. apply string_ltb_false.
Qed.

Lemma get_order_history_ok X pair st orders :
  client_get_all_orders X (requests st) (get_mapped_symbol st pair) None = Ok orders ->
  (get_order_history X pair st).1 =
    Ok (sort_by_time (map (api_order X) (filter (fun r => is_filled r = true) orders)
                      ++ get_manual_orders st pair)%list).
Proof.
  intros Hreply. unfold get_order_history, bind, gets, try_except, request, ret. simpl.
  by rewrite Hreply.
Qed.

(** When the exchange answers the order query, the history is returned
    newest first; it holds the manual fills of the symbol and the exchange
    orders whose status is FILLED, and nothing else; and every exchange fill
    in it carries an average price recomputed from its quote total and its
    quantity (0 when nothing was executed). *)
Theorem get_order_history_answered X pair st orders :
  client_get_all_orders X (requests st) (get_mapped_symbol st pair) None = Ok orders ->
  exists history,
    (get_order_history X pair st).1 = Ok history /\
    history ≡ₚ (map (api_order X) (filter (fun r => raw_status r = "FILLED") orders)
                ++ get_manual_orders st pair)%list /\
    StronglySorted (fun a b => String.leb (time_key b) (time_key a) = true) history /\
    forall r, r ∈ orders -> raw_status r = "FILLED" ->
      api_order X r ∈ history /\
      isManual (api_order X r) = Some false /\
      ((0 < raw_executedQty r)%Q ->
       (avgPrice (api_order X r) * raw_executedQty r == raw_cummulativeQuoteQty r)%Q) /\
      ((raw_executedQty r <= 0)%Q -> avgPrice (api_order X r) = 0%Q).
Proof.
  intros Hreply. eexists. split; [by apply get_order_history_ok|].
  assert (Hfilter : filter (fun r => is_filled r = true) orders
                    = filter (fun r => raw_status r = "FILLED") orders).
  { apply list_filter_iff. intros r. unfold is_filled. by rewrite bool_decide_eq_true. }
  rewrite Hfilter. split; [apply sort_reverse_perm|]. split; [apply sort_by_time_sorted|].
  intros r Hr Hfilled. split; [|split; [reflexivity|split]].
  - unfold sort_by_time. rewrite sort_reverse_perm. apply elem_of_app. left.
    apply list_elem_of_fmap. exists r. split; [done|]. by apply list_elem_of_filter.
  - intros Hpos. simpl. apply Qltb_lt in Hpos. rewrite Hpos. field.
    intros Hzero. apply Qltb_lt in Hpos. rewrite Hzero in Hpos.
    exact (Qlt_irrefl 0 Hpos).
  - intros Hle. simpl. apply Qltb_ge in Hle. by rewrite Hle.
Qed.

Lemma get_order_history_answered_witness :
  exists history,
    (get_order_history xyz_exchange "XYZUSDT" xyz_manual_state).1 = Ok history /\
    history ≡ₚ (map (api_order xyz_exchange)
                  (filter (fun r => raw_status r = "FILLED") xyz_exchange_orders)
                ++ get_manual_orders xyz_manual_state "XYZUSDT")%list /\
    StronglySorted (fun a b => String.leb (time_key b) (time_key a) = true) history /\
    forall r, r ∈ xyz_exchange_orders -> raw_status r = "FILLED" ->
      api_order xyz_exchange r ∈ history /\
      isManual (api_order xyz_exchange r) = Some false /\
      ((0 < raw_executedQty r)%Q ->
       (avgPrice (api_order xyz_exchange r) * raw_executedQty r
        == raw_cummulativeQuoteQty r)%Q) /\
      ((raw_executedQty r <= 0)%Q -> avgPrice (api_order xyz_exchange r) = 0%Q).
Proof.
  apply (get_order_history_answered xyz_exchange "XYZUSDT" xyz_manual_state).
  reflexivity.
Defined.

Lemma manual_orders_after_add (order : Order) (st : State) (pair : string) :
  get_manual_orders (add_manual_order order st).2 pair
  = if decide (pair = symbol order)
    then (get_manual_orders st pair ++ [order])%list
    else get_manual_orders st pair.
Proof.
  unfold add_manual_order, get_manual_orders. simpl.
  destruct (decide (pair = symbol order)) as [->|Hne].
  - by rewrite lookup_insert_eq.
  - by rewrite lookup_insert_ne.
Qed.

Lemma manual_orders_after_delete (pair : string) (order_id : Z) (st : State) other :
  get_manual_orders (delete_manual_order pair order_id st).2 other
  = if decide (other = pair)
    then filter (fun o => orderId o <> order_id) (get_manual_orders st other)
    else get_manual_orders st other.
Proof.
  unfold delete_manual_order, get_manual_orders.
  destruct (manual_orders st !! pair) as [orders|] eqn:E; simpl.
  - destruct (decide (other = pair)) as [->|Hne].
    + by rewrite lookup_insert_eq, E.
    + by rewrite lookup_insert_ne.
  - destruct (decide (other = pair)) as [->|Hne]; [|done]. by rewrite E.
Qed.

(** Adding a manual order answers [True], appends the order to the manual
    orders of its symbol, after those already there, and touches those of no
    other symbol. *)
Theorem add_manual_order_appends (order : Order) (st : State) (pair : string) :
  (add_manual_order order st).1 = true /\
  get_manual_orders (add_manual_order order st).2 pair
  = if decide (pair = symbol order)
    then (get_manual_orders st pair ++ [order])%list
    else get_manual_orders st pair.
Proof.
  split; [reflexivity|]. apply manual_orders_after_add.
Qed.

(** Deleting a manual order does nothing and answers [False] when the
    symbol has no manual orders on record; otherwise it answers [True],
    removes from the symbol's manual orders exactly those with the given id,
    keeps the others in their order, and touches no other symbol. *)
Theorem delete_manual_order_removes (pair : string) (order_id : Z) (st : State) :
  (manual_orders st !! pair = None ->
   delete_manual_order pair order_id st = (false, st)) /\
  (is_Some (manual_orders st !! pair) ->
   (delete_manual_order pair order_id st).1 = true) /\
  forall other,
    get_manual_orders (delete_manual_order pair order_id st).2 other
    = if decide (other = pair)
      then filter (fun o => orderId o <> order_id) (get_manual_orders st other)
      else get_manual_orders st other.
Proof.
  split; [|split].
  - intros Hnone. unfold delete_manual_order. by rewrite Hnone.
  - intros [orders Hsome]. unfold delete_manual_order. by rewrite Hsome.
  - apply manual_orders_after_delete.
Qed.

Lemma filter_all {A} (P : A -> Prop) `{!forall x, Decision (P x)} (l : list A) :
  Forall P l -> filter P l = l.
Proof.
  induction 1 as [|x l Hx Hl IH]; [done|].
  rewrite filter_cons, decide_True by done. by rewrite IH.
Qed.

(** Adding a manual order and deleting it again by its id gives back the
    manual orders there were, for every symbol, provided no manual order of
    that symbol already had the id. *)
Theorem add_then_delete_manual_order (order : Order) (st : State) :
  Forall (fun o => orderId o <> orderId order) (get_manual_orders st (symbol order)) ->
  forall pair,
    get_manual_orders
      (delete_manual_order (symbol order) (orderId order) (add_manual_order order st).2).2
      pair
    = get_manual_orders st pair.
Proof.
  intros Hfresh pair.
  rewrite manual_orders_after_delete, manual_orders_after_add.
  destruct (decide (pair = symbol order)) as [->|Hne]; [|done].
  rewrite filter_app, filter_cons, decide_False by (intros H; by apply H).
  rewrite filter_nil, app_nil_r. by apply filter_all.
Qed.

Lemma add_then_delete_manual_order_witness :
  get_manual_orders
    (delete_manual_order (symbol xyz_fill) (orderId xyz_fill)
       (add_manual_order xyz_fill initial_state).2).2 "XYZUSDT"
  = get_manual_orders initial_state "XYZUSDT".
Proof.
  apply (add_then_delete_manual_order xyz_fill initial_state). constructor.
Defined.

(** After a manual order is deleted by id, the history of the symbol is the
    history there was without the orders of that id, in the same order,
    provided no exchange order carries the id: the exchange fills are
    untouched. *)
Theorem delete_manual_order_in_history X pair order_id st orders :
  client_get_all_orders X (requests st) (get_mapped_symbol st pair) None = Ok orders ->
  (forall r, r ∈ orders -> raw_orderId r <> order_id) ->
  exists history,
    (get_order_history X pair st).1 = Ok history /\
    (get_order_history X pair (delete_manual_order pair order_id st).2).1
    = Ok (filter (fun o => orderId o <> order_id) history).
Proof.
  intros Hreply Hids. eexists. split; [by apply get_order_history_ok|].
  assert (Hsame : requests (delete_manual_order pair order_id st).2 = requests st /\
                  get_mapped_symbol (delete_manual_order pair order_id st).2 pair
                  = get_mapped_symbol st pair).
  { unfold delete_manual_order. by destruct (manual_orders st !! pair). }
  destruct Hsame as [Hreq Hmap].
  rewrite (get_order_history_ok X pair _ orders) by (by rewrite Hreq, Hmap).
  f_equal. unfold sort_by_time.
  rewrite (sort_reverse_filter String.ltb time_key string_ltb_trans)
    by apply string_ltb_asym.
  f_equal. rewrite filter_app. f_equal.
  - symmetry. apply filter_all, Forall_forall. intros o Ho.
    apply list_elem_of_fmap in Ho as (r & -> & Hr).
    apply list_elem_of_filter in Hr as [_ Hr]. simpl. by apply Hids.
  - rewrite manual_orders_after_delete. by rewrite decide_True.
Qed.

Lemma delete_manual_order_in_history_witness :
  exists history,
    (get_order_history xyz_exchange "XYZUSDT" xyz_manual_state).1 = Ok history /\
    (get_order_history xyz_exchange "XYZUSDT"
       (delete_manual_order "XYZUSDT" (-5) xyz_manual_state).2).1
    = Ok (filter (fun o => orderId o <> (-5)%Z) history).
Proof.
  apply (delete_manual_order_in_history xyz_exchange "XYZUSDT" (-5) xyz_manual_state
           xyz_exchange_orders).
  - reflexivity.
  - intros r Hr. repeat (apply elem_of_cons in Hr as [->|Hr]; [discriminate|]).
    by apply elem_of_nil in Hr.
Defined.

(** ** Symbol mappings *)

Lemma assoc_dict_set (k v k' : string) (l : list (string * string)) :
  assoc k' (dict_set k v l) = if decide (k' = k) then Some v else assoc k' l.
Proof.
  induction l as [|[k0 v0] l IH]; simpl.
  - destruct (decide (k = k')) as [->|Hne].
    + by rewrite decide_True.
    + by rewrite decide_False by congruence.
  - destruct (decide (k0 = k)) as [->|Hne0]; simpl.
    + destruct (decide (k = k')) as [->|Hne].
      * by rewrite decide_True.
      * by rewrite decide_False by congruence.
    + destruct (decide (k0 = k')) as [->|Hne1].
      * by rewrite decide_False.
      * exact IH.
Qed.

Lemma mapped_symbol_after_add (invalid_symbol valid_symbol : string) (st : State) pair :
  get_mapped_symbol (add_symbol_mapping invalid_symbol valid_symbol st).2 pair
  = if decide (pair = invalid_symbol) then valid_symbol else get_mapped_symbol st pair.
Proof.
  unfold add_symbol_mapping, get_mapped_symbol. simpl.
  rewrite assoc_dict_set. by destruct (decide (pair = invalid_symbol)).
Qed.

(** A symbol without a mapping is mapped to itself; after
    [add_symbol_mapping] the invalid symbol is mapped to the valid one,
    whatever it was mapped to before, and every other symbol is mapped as it
    was. *)
Theorem add_symbol_mapping_lookup (invalid_symbol valid_symbol : string) (st : State) :
  (forall pair, assoc pair (symbol_mappings st) = None ->
                get_mapped_symbol st pair = pair) /\
  (add_symbol_mapping invalid_symbol valid_symbol st).1 = true /\
  forall pair,
    get_mapped_symbol (add_symbol_mapping invalid_symbol valid_symbol st).2 pair
    = if decide (pair = invalid_symbol) then valid_symbol
      else get_mapped_symbol st pair.
Proof.
  split; [|split].
  - intros pair Hnone. unfold get_mapped_symbol. by rewrite Hnone.
  - reflexivity.
  - apply mapped_symbol_after_add.
Qed.

(** After a mapping is added, the history of the invalid symbol is made of
    the filled exchange orders of the valid symbol and of the manual orders
    recorded under the invalid symbol itself. *)
Theorem mapped_symbol_history X invalid_symbol valid_symbol st orders :
  client_get_all_orders X (requests st) valid_symbol None = Ok orders ->
  (get_order_history X invalid_symbol
     (add_symbol_mapping invalid_symbol valid_symbol st).2).1
  = Ok (sort_by_time
          (map (api_order X) (filter (fun r => is_filled r = true) orders)
           ++ get_manual_orders st invalid_symbol)%list).
Proof.
  intros Hreply.
  rewrite (get_order_history_ok X invalid_symbol _ orders).
  - reflexivity.
  - rewrite mapped_symbol_after_add, decide_True by done. exact Hreply.
Qed.

Lemma mapped_symbol_history_witness :
  (get_order_history xyz_exchange "XYZUSD"
     (add_symbol_mapping "XYZUSD" "XYZUSDT" xyz_manual_state).2).1
  = Ok (sort_by_time
          (map (api_order xyz_exchange)
             (filter (fun r => is_filled r = true) xyz_exchange_orders)
           ++ get_manual_orders xyz_manual_state "XYZUSD")%list).
Proof.
  apply (mapped_symbol_history xyz_exchange "XYZUSD" "XYZUSDT" xyz_manual_state).
  reflexivity.
Defined.

(** ** Annotation and normalization in the consolidated history *)

(** The annotation of one order cannot fail, and only adds keys. *)
Lemma annotate_order_ok X asset_name pair base_currency order st :
  exists annotated st',
    annotate_order X asset_name pair base_currency order st = (Ok annotated, st') /\
    orderId annotated = orderId order /\
    side annotated = side order /\
    time annotated = time order /\
    price annotated = price order /\
    executedQty annotated = executedQty order /\
    cummulativeQuoteQty annotated = cummulativeQuoteQty order /\
    baseAsset annotated = Some asset_name /\
    originalSymbol annotated = Some pair /\
    is_Some (normalizedPrice annotated) /\
    is_Some (normalizedTotal annotated) /\
    is_Some (baseCurrency annotated).
Proof.
  unfold annotate_order.
  destruct (decide (string_drop (String.length asset_name) pair = base_currency)).
  - unfold ret. eexists _, _. split; [reflexivity|]. simpl. repeat split; by eexists.
  - unfold try_except, bind, ret.
    destruct (normalized_values X _ _ base_currency st) as [[normalized|e] st1];
      (eexists _, _; split; [reflexivity|]; simpl; repeat split; by eexists).
Qed.

Lemma mapM_ok {A B} (f : A -> M B) (P : A -> B -> Prop) :
  (forall x st, exists y st', f x st = (Ok y, st') /\ P x y) ->
  forall l st, exists ys st', mapM f l st = (Ok ys, st') /\ Forall2 P l ys.
Proof.
  intros Hf. induction l as [|x l IH]; intros st; simpl.
  - by eexists _, _.
  - destruct (Hf x st) as (y & st1 & Hy & HP).
    destruct (IH st1) as (ys & st2 & Hys & HPs).
    exists (y :: ys), st2. split; [|by constructor].
    unfold bind. by rewrite Hy, Hys.
Qed.

Lemma mapM_ok_inv {A B} (f : A -> M B) (P : B -> Prop) :
  (forall x st y st', f x st = (Ok y, st') -> P y) ->
  forall l st ys st', mapM f l st = (Ok ys, st') -> Forall P ys.
Proof.
  intros Hf. induction l as [|x l IH]; intros st ys st'; simpl.
  - unfold ret. intros H. inversion H. constructor.
  - intros H. apply bind_ok_inv in H as (y & st1 & Hy & H).
    apply bind_ok_inv in H as (ys' & st2 & Hys & H).
    unfold ret in H. inversion H; subst. constructor; eauto.
Qed.

(** Normalizing the orders of a pair never fails and never alters their
    quantities, quote totals, prices, sides, ids or times: whatever the
    price queries do, only the annotation keys are added. *)
Theorem normalization_keeps_orders X asset_name pair base_currency orders st :
  exists annotated st',
    mapM (annotate_order X asset_name pair base_currency) orders st
    = (Ok annotated, st') /\
    map executedQty annotated = map executedQty orders /\
    map cummulativeQuoteQty annotated = map cummulativeQuoteQty orders /\
    map price annotated = map price orders /\
    map side annotated = map side orders /\
    map orderId annotated = map orderId orders /\
    map time annotated = map time orders.
Proof.
  destruct (mapM_ok (annotate_order X asset_name pair base_currency)
              (fun o a => orderId a = orderId o /\ side a = side o /\ time a = time o /\
                          price a = price o /\ executedQty a = executedQty o /\
                          cummulativeQuoteQty a = cummulativeQuoteQty o)
              ltac:(intros o s;
                    destruct (annotate_order_ok X asset_name pair base_currency o s)
                      as (a & s' & H & ? & ? & ? & ? & ? & ? & _); eauto 10)
              orders st) as (annotated & st' & Hrun & Hall).
  exists annotated, st'. split; [exact Hrun|].
  clear Hrun. induction Hall as [|o a l l' (Hid & Hside & Htime & Hprice & Hqty & Hcost) _ IH];
    [done|].
  destruct IH as (? & ? & ? & ? & ? & ?). simpl. repeat split; by f_equal.
Qed.

(** When every price query fails, the order keeps its own price and total
    as normalized values.  With BTC or ETH as quote asset it is labelled with
    its quote asset; with any other quote asset it is labelled with the base
    currency, although nothing was converted. *)
Theorem unconverted_order_label X asset_name pair base_currency order st :
  (forall n pair', exists e, client_get_symbol_ticker X n pair' = Raise e) ->
  let quote_asset := string_drop (String.length asset_name) pair in
  quote_asset <> base_currency ->
  exists annotated st',
    annotate_order X asset_name pair base_currency order st = (Ok annotated, st') /\
    normalizedPrice annotated = Some (price order) /\
    normalizedTotal annotated = Some (cummulativeQuoteQty order) /\
    baseCurrency annotated
    = Some (if bool_decide (quote_asset = "BTC") || bool_decide (quote_asset = "ETH")
            then quote_asset else base_currency).
Proof.
  intros Hdown quote_asset Hquote.
  assert (Hprice : forall pair' s, exists e s',
             get_symbol_price X pair' s = (Raise e, s')).
  { intros pair' s. rewrite get_symbol_price_is_request.
    destruct (Hdown (requests s) (get_mapped_symbol s pair')) as [e ->]. eauto. }
  unfold annotate_order. fold quote_asset. rewrite decide_False by done.
  unfold normalized_values.
  destruct (decide (quote_asset = "BTC")) as [Hbtc|Hbtc].
  { destruct (Hprice ("BTC" +:+ base_currency) st) as (e & s' & He).
    unfold try_except, bind, ret. rewrite He. simpl.
    eexists _, _. split; [reflexivity|]. simpl.
    rewrite (bool_decide_eq_true_2 _ Hbtc). done. }
  destruct (decide (quote_asset = "ETH")) as [Heth|Heth].
  { destruct (Hprice ("ETH" +:+ base_currency) st) as (e & s' & He).
    unfold try_except, bind, ret. rewrite He. simpl.
    eexists _, _. split; [reflexivity|]. simpl.
    rewrite (bool_decide_eq_false_2 _ Hbtc), (bool_decide_eq_true_2 _ Heth). done. }
  destruct (Hprice (quote_asset +:+ base_currency) st) as (e1 & s1 & He1).
  destruct (Hprice (base_currency +:+ quote_asset) s1) as (e2 & s2 & He2).
  unfold try_except, bind, ret. rewrite He1, He2. simpl.
  eexists _, _. split; [reflexivity|]. simpl.
  rewrite (bool_decide_eq_false_2 _ Hbtc), (bool_decide_eq_false_2 _ Heth). done.
Qed.

Lemma unconverted_order_label_witness :
  exists annotated st',
    annotate_order quiet_exchange "XYZ" "XYZEUR" "USDT" xyz_fill initial_state
    = (Ok annotated, st') /\
    normalizedPrice annotated = Some (price xyz_fill) /\
    normalizedTotal annotated = Some (cummulativeQuoteQty xyz_fill) /\
    baseCurrency annotated
    = Some (if bool_decide (string_drop (String.length "XYZ") "XYZEUR" = "BTC")
               || bool_decide (string_drop (String.length "XYZ") "XYZEUR" = "ETH")
            then string_drop (String.length "XYZ") "XYZEUR" else "USDT").
Proof.
  apply (unconverted_order_label quiet_exchange "XYZ" "XYZEUR" "USDT" xyz_fill
           initial_state).
  - intros n pair'. by eexists.
  - discriminate.
Defined.

(** ** The pairs of the consolidated history *)

Lemma pair_has_orders_ok X pair st :
  exists has_orders,
    pair_has_orders X pair st
    = (Ok has_orders,
       with_world (S (requests st)) (now st) (slept st) (draws st) (delivered st) st).
Proof.
  unfold pair_has_orders, try_except, bind, request, ret, gets.
  destruct (client_get_all_orders X (requests st) pair (Some 1%Z)) as [orders|e];
    by eexists.
Qed.

Lemma probe_pairs_ok X asset_name quotes :
  forall all_pairs st,
    exists chosen st',
      probe_pairs (pair_has_orders X) asset_name quotes all_pairs st
      = (Ok (all_pairs ++ map (String.append asset_name) chosen)%list, st') /\
      chosen `sublist_of` quotes /\
      requests st' = (requests st + length quotes)%nat /\
      symbol_mappings st' = symbol_mappings st /\
      manual_orders st' = manual_orders st.
Proof.
  induction quotes as [|quote quotes IH]; intros all_pairs st; simpl.
  - exists [], st. rewrite app_nil_r. repeat split; [constructor|lia].
  - destruct (pair_has_orders_ok X (asset_name +:+ quote) st) as (has_orders & Hprobe).
    unfold bind. rewrite Hprobe.
    set (st1 := with_world _ _ _ _ _ st).
    destruct has_orders.
    + destruct (IH (all_pairs ++ [asset_name +:+ quote])%list st1)
        as (chosen & st' & Hrun & Hsub & Hreq & Hmap & Hman).
      exists (quote :: chosen), st'. rewrite Hrun. simpl.
      rewrite <- app_assoc. repeat split; try done.
      * by constructor.
      * rewrite Hreq. simpl. lia.
    + destruct (IH all_pairs st1) as (chosen & st' & Hrun & Hsub & Hreq & Hmap & Hman).
      exists chosen, st'. rewrite Hrun. repeat split; try done.
      * by constructor.
      * rewrite Hreq. simpl. lia.
Qed.

Lemma add_mapped_pairs_NoDup asset_name mappings :
  forall all_pairs, NoDup all_pairs -> NoDup (add_mapped_pairs asset_name mappings all_pairs).
Proof.
  unfold add_mapped_pairs.
  induction mappings as [|m mappings IH]; intros all_pairs Hnodup; simpl; [done|].
  apply IH.
  destruct (String.prefix asset_name m.1); simpl; [|done].
  destruct (bool_decide (m.2 ∈ all_pairs)) eqn:E; simpl; [done|].
  apply bool_decide_eq_false in E.
  apply NoDup_app. split; [done|]. split; [|apply NoDup_singleton].
  intros x Hx Hin. apply list_elem_of_singleton in Hin. by subst.
Qed.

(** The probing of the five quote assets (USDT, BUSD, USDC, BTC, ETH) never
    fails and costs exactly five requests; the pairs it keeps are pairs of
    the asset with a quote asset, in priority order; and with the pairs added
    from the symbol mappings no pair name occurs twice in the list whose
    histories are fetched.  Names are told apart, not exchange symbols: two
    names of the list may still be mapped to one symbol. *)
Theorem probed_pairs_are_distinct X asset_name st :
  exists pairs st',
    probe_pairs (pair_has_orders X) asset_name quote_assets [] st = (Ok pairs, st') /\
    pairs `sublist_of` map (String.append asset_name) quote_assets /\
    requests st' = (requests st + 5)%nat /\
    forall mappings, NoDup (add_mapped_pairs asset_name mappings pairs).
Proof.
  destruct (probe_pairs_ok X asset_name quote_assets [] st)
    as (chosen & st' & Hrun & Hsub & Hreq & _ & _).
  exists (map (String.append asset_name) chosen), st'.
  split; [exact Hrun|]. split; [by apply fmap_sublist|]. split; [exact Hreq|].
  intros mappings. apply add_mapped_pairs_NoDup.
  apply (NoDup_fmap_2 (String.append asset_name)).
  refine (sublist_NoDup _ _ _ Hsub).
  unfold quote_assets. compute_done.
Qed.

(** ** The consolidated history as a whole *)

Lemma sort_by_time_Forall (P : Order -> Prop) orders :
  Forall P orders -> Forall P (sort_by_time orders).
Proof.
  intros H. unfold sort_by_time. by rewrite sort_reverse_perm.
Qed.

(** Whenever the consolidated history is returned, it is newest first and
    every order in it carries the annotation keys: the asset, the quote
    asset, the original symbol, and the normalized price and total with
    their currency. *)
Theorem consolidated_history_is_annotated X asset_name base_currency st history st' :
  get_consolidated_order_history X asset_name base_currency st = (Ok history, st') ->
  StronglySorted (fun a b => String.leb (time_key b) (time_key a) = true) history /\
  Forall (fun o => baseAsset o = Some asset_name /\
                   is_Some (originalSymbol o) /\
                   is_Some (normalizedPrice o) /\
                   is_Some (normalizedTotal o) /\
                   is_Some (baseCurrency o)) history.
Proof.
  unfold get_consolidated_order_history, consolidate. intros H.
  apply bind_ok_inv in H as (pairs & st1 & _ & H).
  apply bind_ok_inv in H as (mappings & st2 & _ & H).
  apply bind_ok_inv in H as (per_pair & st3 & Hmap & H).
  unfold ret in H. inversion H; subst. split; [apply sort_by_time_sorted|].
  apply sort_by_time_Forall, Forall_concat.
  eapply mapM_ok_inv; [|exact Hmap].
  intros pair s orders s' Hpair. simpl in Hpair.
  apply bind_ok_inv in Hpair as (fetched & s1 & _ & Hannot).
  eapply mapM_ok_inv; [|exact Hannot].
  intros o s2 a s3 Ha. simpl in Ha.
  destruct (annotate_order_ok X asset_name pair base_currency o s2)
    as (a' & s3' & Ha' & _ & _ & _ & _ & _ & _ & Hbase & Horig & Hnp & Hnt & Hcur).
  rewrite Ha' in Ha. inversion Ha; subst. rewrite Horig. repeat split; by eauto.
Qed.

Lemma consolidated_history_is_annotated_witness :
  StronglySorted (fun a b => String.leb (time_key b) (time_key a) = true)
    (sort_by_time [with_normalized (price xyz_fill) (cummulativeQuoteQty xyz_fill) "USDT"
                     (with_pair_info "XYZ" "USDT" "XYZUSDT" xyz_fill)]) /\
  Forall (fun o => baseAsset o = Some "XYZ" /\
                   is_Some (originalSymbol o) /\
                   is_Some (normalizedPrice o) /\
                   is_Some (normalizedTotal o) /\
                   is_Some (baseCurrency o))
    (sort_by_time [with_normalized (price xyz_fill) (cummulativeQuoteQty xyz_fill) "USDT"
                     (with_pair_info "XYZ" "USDT" "XYZUSDT" xyz_fill)]).
Proof.
  apply (consolidated_history_is_annotated (probe_fails_with connection_error)
           "XYZ" "USDT" xyz_manual_state _
           (get_consolidated_order_history (probe_fails_with connection_error)
              "XYZ" "USDT" xyz_manual_state).2).
  vm_compute. reflexivity.
Defined.

(** ** Account queries under rate limits *)

(** [get_account_info] waits out any number of consecutive RATE_LIMITED
    answers: after [k] of them and an answer with the account, it has slept
    [k] times, between 31 and 60 seconds each time, has issued [k + 1]
    requests, and returns the account. *)
Theorem get_account_info_retries X account :
  forall k depth st,
    (k < depth)%nat ->
    (forall i, (i < k)%nat ->
       client_get_account X (requests st + i)
       = Raise (BinanceAPIException RATE_LIMITED)) ->
    client_get_account X (requests st + k) = Ok account ->
    exists st' waits,
      get_account_info X depth st = (Ok account, st') /\
      slept st' = (waits ++ slept st)%list /\
      length waits = k /\
      Forall (fun w => (31 <= w <= 60)%Z) waits /\
      requests st' = (requests st + k + 1)%nat.
Proof.
  induction k as [|k IH]; intros depth st Hdepth Hlimited Hanswer;
    (destruct depth as [|depth]; [lia|]).
  - rewrite Nat.add_0_r in Hanswer. simpl. unfold try_except, request.
    rewrite Hanswer. eexists _, []. repeat split; simpl; try done. lia.
  - pose proof (Hlimited O ltac:(lia)) as Hfirst. rewrite Nat.add_0_r in Hfirst.
    destruct (get_account_info_retry X depth st Hfirst) as (wait & Hwait & Hretry).
    rewrite Hretry.
    set (st2 := with_world _ _ _ _ _ st).
    destruct (IH depth st2) as (st' & waits & Hrun & Hslept & Hlen & Hall & Hreq).
    + lia.
    + intros i Hi. simpl.
      replace (S (requests st + i)) with (requests st + S i)%nat by lia.
      apply Hlimited. lia.
    + simpl. replace (S (requests st + k)) with (requests st + S k)%nat by lia. done.
    + exists st', (waits ++ [wait])%list. repeat split.
      * done.
      * rewrite Hslept. simpl. by rewrite <- app_assoc.
      * rewrite length_app. simpl. lia.
      * apply Forall_app. split; [done|]. constructor; [exact Hwait|constructor].
      * rewrite Hreq. simpl. lia.
Qed.

Lemma get_account_info_retries_witness :
  exists st' waits,
    get_account_info (account_limited 2 []) 3 initial_state = (Ok [], st') /\
    slept st' = (waits ++ slept initial_state)%list /\
    length waits = 2%nat /\
    Forall (fun w => (31 <= w <= 60)%Z) waits /\
    requests st' = (requests initial_state + 2 + 1)%nat.
Proof.
  apply (get_account_info_retries (account_limited 2 []) [] 2 3 initial_state).
  - lia.
  - intros i Hi. destruct i as [|[|i]]; [reflexivity|reflexivity|lia].
  - reflexivity.
Defined.

Lemma compute_usd_value_unpriced name amount :
  compute_usd_value ∅ name amount
  = if bool_decide (name ∈ stablecoins) then amount else 0%Q.
Proof.
  unfold compute_usd_value. destruct (bool_decide (name ∈ stablecoins)); [done|].
  unfold quote_assets. simpl. by rewrite !lookup_empty.
Qed.

(** When the listing of all tickers is rate limited or refused for a
    banned address, the balances are listed all the same, without a sleep or
    a retry: a stablecoin is valued at its total and every other asset at 0. *)
Theorem balances_without_prices X depth min_value st account code :
  client_get_account X (requests st) = Ok account ->
  client_get_all_tickers X (S (requests st)) = Raise (BinanceAPIException code) ->
  code = RATE_LIMITED \/ code = IP_BANNED ->
  exists balances st',
    get_spot_balances X (S depth) min_value st = (Ok balances, st') /\
    slept st' = slept st /\
    requests st' = S (S (requests st)) /\
    balances = sort_by_usd_value (omap (balance_entry st ∅ min_value) account) /\
    forall b, b ∈ balances ->
      usd_value b = if bool_decide (asset b ∈ stablecoins) then total b else 0%Q.
Proof.
  intros Haccount Htickers Hcode.
  eexists _, _. split; [|split; [|split; [|split]]].
  - simpl. unfold try_except at 1. unfold list_balances. unfold bind at 1. simpl.
    unfold try_except at 1. unfold request at 1. rewrite Haccount.
    unfold bind at 1. unfold all_prices, try_except, bind, request. simpl.
    rewrite Htickers.
    assert (Hgate : bool_decide (code = IP_BANNED) || bool_decide (code = RATE_LIMITED)
                    = true).
    { destruct Hcode as [-> | ->]; reflexivity. }
    rewrite Hgate. reflexivity.
  - reflexivity.
  - reflexivity.
  - reflexivity.
  - intros b Hb. apply (proj1 (sort_by_usd_value_elem _ _)) in Hb.
    apply list_elem_of_omap in Hb as (raw & _ & Hentry).
    apply balance_entry_some in Hentry as (_ & _ & _ & _ & _ & Husd).
    rewrite Husd. apply compute_usd_value_unpriced.
Qed.

Lemma balances_without_prices_witness :
  exists balances st',
    get_spot_balances (tickers_fail_with (BinanceAPIException RATE_LIMITED)) 1 0
      initial_state = (Ok balances, st') /\
    slept st' = slept initial_state /\
    requests st' = S (S (requests initial_state)) /\
    balances
    = sort_by_usd_value (omap (balance_entry initial_state ∅ 0) btc_and_usdt) /\
    forall b, b ∈ balances ->
      usd_value b = if bool_decide (asset b ∈ stablecoins) then total b else 0%Q.
Proof.
  apply (balances_without_prices (tickers_fail_with (BinanceAPIException RATE_LIMITED))
           0 0 initial_state btc_and_usdt RATE_LIMITED).
  - reflexivity.
  - reflexivity.
  - by left.
Defined.

(** Any other failure of the ticker listing loses the whole listing: an API
    error of another code ends in an empty list, and an exception that is not
    an API error leaves [get_spot_balances] as it is. *)
Theorem balances_lost_with_tickers X depth min_value st account e :
  client_get_account X (requests st) = Ok account ->
  client_get_all_tickers X (S (requests st)) = Raise e ->
  e <> BinanceAPIException RATE_LIMITED ->
  e <> BinanceAPIException IP_BANNED ->
  (get_spot_balances X (S depth) min_value st).1
  = match e with
    | BinanceAPIException _ => Ok []
    | _ => Raise e
    end.
Proof.
  intros Haccount Htickers Hnot_limited Hnot_banned.
  simpl. unfold try_except at 1. unfold list_balances. unfold bind at 1. simpl.
  unfold try_except at 1. unfold request at 1. rewrite Haccount.
  unfold bind at 1. unfold all_prices, try_except, bind, request. simpl.
  rewrite Htickers.
  destruct e as [code| | |msg]; try reflexivity.
  rewrite (bool_decide_eq_false_2 (code = IP_BANNED)) by congruence.
  rewrite (bool_decide_eq_false_2 (code = RATE_LIMITED)) by congruence.
  simpl. unfold raise.
  rewrite decide_False by congruence. rewrite decide_False by congruence. reflexivity.
Qed.

Lemma balances_lost_with_tickers_witness :
  (get_spot_balances (tickers_fail_with connection_error) 1 0 initial_state).1
  = Raise connection_error.
Proof.
  apply (balances_lost_with_tickers (tickers_fail_with connection_error) 0 0
           initial_state btc_and_usdt connection_error);
    [reflexivity|reflexivity|discriminate..].
Defined.

(** ** Subscriptions *)

Ltac socket_cases :=
  repeat match goal with
         | |- context [match ?x with _ => _ end] =>
             match type of x with
             | bool => destruct x eqn:?
             | option _ => destruct x eqn:?
             | res _ => destruct x eqn:?
             end; simpl
         end.

(** A subscription always ends with a connection key: whatever fails on
    the way, the callback of the symbol is registered and the connection
    table holds the key that is returned. *)
Theorem subscription_always_registers X pair callback st :
  exists key st',
    start_symbol_ticker_websocket X pair callback st = (Ok key, st') /\
    price_callbacks st' !! pair = Some callback /\
    socket_connections st' !! pair = Some key.
Proof.
  unfold start_symbol_ticker_websocket, try_except, bind, gets, modify, ret, raise,
    set_socket_manager, run_socket, _start_polling, sleep, may_raise,
    try_except, bind, modify, ret, raise.
  simpl. socket_cases;
    (eexists _, _; split; [reflexivity|]; simpl; split; apply lookup_insert_eq).
Qed.

Lemma poll_round X pair callback st :
  exists prices,
    (length prices <= 1)%nat /\
    (let round :=
       let* _ := try_except
                   (let* price := get_symbol_price X pair in
                    deliver callback pair price)
                   (fun _ => ret tt) in
       sleep 5 in
     round st
     = (Ok tt,
        with_world (S (requests st)) (now st + inject_Z 5) (5%Z :: slept st) (draws st)
          (map (fun p => (callback, pair, p)) prices ++ delivered st)%list st)).
Proof.
  cbv zeta. unfold bind, try_except, sleep, modify, deliver, ret.
  rewrite get_symbol_price_is_request.
  destruct (client_get_symbol_ticker X (requests st) (get_mapped_symbol st pair))
    as [p|e]; simpl.
  - exists [p]. split; [simpl; lia|reflexivity].
  - exists []. split; [simpl; lia|reflexivity].
Qed.

(** While the callback of its symbol stays registered, the polling loop
    goes on whether the price requests succeed or fail: [n] rounds cost [n]
    requests and [n] sleeps of 5 seconds, and what is delivered goes to the
    loop's callback under the loop's symbol, at most once a round. *)
Theorem polling_rounds X pair callback :
  forall n st,
    is_Some (price_callbacks st !! pair) ->
    exists st' prices,
      poll_price X n pair callback st = (Ok n, st') /\
      requests st' = (requests st + n)%nat /\
      slept st' = (replicate n 5%Z ++ slept st)%list /\
      delivered st' = (map (fun p => (callback, pair, p)) prices ++ delivered st)%list /\
      (length prices <= n)%nat /\
      price_callbacks st' = price_callbacks st.
Proof.
  induction n as [|n IH]; intros st Hreg.
  - exists st, []. simpl. repeat split; first [done|lia].
  - simpl. unfold poll_guard. rewrite bool_decide_eq_true_2 by done.
    destruct (poll_round X pair callback st) as (first & Hlen & Hround).
    cbv zeta in Hround. unfold bind in Hround.
    unfold bind at 1.
    destruct (try_except _ _ st) as [[[]|e] s1] eqn:Htry; [|discriminate].
    unfold bind at 1. rewrite Hround.
    set (st1 := with_world _ _ _ _ _ st).
    destruct (IH st1 Hreg) as (st' & prices & Hrun & Hreq & Hslept & Hdel & Hlen' & Hcb).
    unfold bind. rewrite Hrun. unfold ret.
    exists st', (prices ++ first)%list. repeat split.
    + rewrite Hreq. simpl. lia.
    + rewrite Hslept. simpl. clear.
      induction n as [|n IHn]; simpl; [done|]. by rewrite IHn.
    + rewrite Hdel. simpl. by rewrite map_app, <- app_assoc.
    + rewrite length_app. lia.
    + done.
Qed.

Lemma polling_rounds_witness :
  exists st' prices,
    poll_price no_sockets 3 "BTCUSDT" 1 polling_without_manager = (Ok 3%nat, st') /\
    requests st' = (requests polling_without_manager + 3)%nat /\
    slept st' = (replicate 3 5%Z ++ slept polling_without_manager)%list /\
    delivered st'
    = (map (fun p => (1%nat, "BTCUSDT", p)) prices
       ++ delivered polling_without_manager)%list /\
    (length prices <= 3)%nat /\
    price_callbacks st' = price_callbacks polling_without_manager.
Proof.
  apply (polling_rounds no_sockets "BTCUSDT" 1 3 polling_without_manager).
  by eexists.
Defined.

(** When no socket manager can be built, the subscription falls back to
    polling and leaves [socket_manager] unset; from then on neither
    unsubscribing the symbol nor closing the sockets changes anything, so the
    callback stays registered and the polling loop goes on. *)
Theorem polling_without_manager_cannot_be_stopped X pair callback st e1 e2 :
  socket_manager st = None ->
  new_spot_websocket_client X = Raise e1 ->
  new_socket_manager X = Raise e2 ->
  let st1 := (start_symbol_ticker_websocket X pair callback st).2 in
  socket_manager st1 = None /\
  price_callbacks st1 !! pair = Some callback /\
  socket_connections st1 !! pair = Some ("poll_" +:+ pair) /\
  stop_symbol_ticker_websocket pair st1 = (Ok tt, st1) /\
  close_websockets st1 = (Ok tt, st1).
Proof.
  intros Hnone Hspot Hlegacy st1.
  assert (Hst1 : st1 = with_sockets None (<[pair := "poll_" +:+ pair]> (socket_connections st))
                         (<[pair := callback]> (price_callbacks st)) (ws_thread st) st).
  { subst st1.
    unfold start_symbol_ticker_websocket, try_except, bind, gets, _start_polling,
      modify, ret.
    rewrite Hnone, Hspot, Hlegacy. simpl.
    destruct (spot_websocket_client_in_globals X); simpl; by rewrite Hnone. }
  rewrite Hst1. simpl. repeat split.
  - apply lookup_insert_eq.
  - apply lookup_insert_eq.
  - unfold stop_symbol_ticker_websocket, bind, gets. simpl.
    by rewrite lookup_insert_eq.
Qed.

Lemma polling_without_manager_cannot_be_stopped_witness :
  socket_manager (start_symbol_ticker_websocket no_sockets "BTCUSDT" 1 initial_state).2
  = None /\
  price_callbacks (start_symbol_ticker_websocket no_sockets "BTCUSDT" 1 initial_state).2
    !! "BTCUSDT" = Some 1%nat /\
  socket_connections (start_symbol_ticker_websocket no_sockets "BTCUSDT" 1 initial_state).2
    !! "BTCUSDT" = Some ("poll_" +:+ "BTCUSDT") /\
  stop_symbol_ticker_websocket "BTCUSDT"
    (start_symbol_ticker_websocket no_sockets "BTCUSDT" 1 initial_state).2
  = (Ok tt, (start_symbol_ticker_websocket no_sockets "BTCUSDT" 1 initial_state).2) /\
  close_websockets (start_symbol_ticker_websocket no_sockets "BTCUSDT" 1 initial_state).2
  = (Ok tt, (start_symbol_ticker_websocket no_sockets "BTCUSDT" 1 initial_state).2).
Proof.
  apply (polling_without_manager_cannot_be_stopped no_sockets "BTCUSDT" 1 initial_state
           (OtherException "TypeError") (OtherException "TypeError"));
    reflexivity.
Defined.

(** With a socket manager in place, subscribing a symbol and unsubscribing
    it again leaves the symbol in neither table, whether the subscription
    was streamed or polled and whether or not stopping the socket raised;
    the entries of the other symbols and the manager are as they were. *)
Theorem unsubscribe_after_subscribe X pair callback st manager :
  socket_manager st = Some manager ->
  let st1 := (start_symbol_ticker_websocket X pair callback st).2 in
  let st2 := (stop_symbol_ticker_websocket pair st1).2 in
  price_callbacks st2 !! pair = None /\
  socket_connections st2 !! pair = None /\
  socket_manager st2 = Some manager /\
  forall other, other <> pair ->
    price_callbacks st2 !! other = price_callbacks st !! other /\
    socket_connections st2 !! other = socket_connections st !! other.
Proof.
  intros Hmanager st1 st2. subst st2 st1.
  unfold start_symbol_ticker_websocket, stop_symbol_ticker_websocket, try_except, bind,
    gets, modify, ret, raise, _start_polling, may_raise, try_except, bind, modify, ret,
    raise.
  rewrite Hmanager. simpl.
  socket_cases; simpl in *;
    repeat match goal with
           | H : <[_ := _]> _ !! _ = None |- _ => rewrite lookup_insert_eq in H; discriminate
           | H : socket_manager _ = None |- _ => rewrite Hmanager in H; discriminate
           end;
    (split; [apply lookup_delete_eq|]; split; [apply lookup_delete_eq|];
     split; [first [exact Hmanager|done]|];
     intros other Hother;
     rewrite ?lookup_delete_ne by done; rewrite ?lookup_insert_ne by done; done).
Qed.

Lemma unsubscribe_after_subscribe_witness :
  price_callbacks
    (stop_symbol_ticker_websocket "ETHUSDT"
       (start_symbol_ticker_websocket (priced_exchange (Ok fallback_manager)) "ETHUSDT" 2
          subscribed_with_manager).2).2 !! "ETHUSDT" = None /\
  socket_connections
    (stop_symbol_ticker_websocket "ETHUSDT"
       (start_symbol_ticker_websocket (priced_exchange (Ok fallback_manager)) "ETHUSDT" 2
          subscribed_with_manager).2).2 !! "ETHUSDT" = None /\
  socket_manager
    (stop_symbol_ticker_websocket "ETHUSDT"
       (start_symbol_ticker_websocket (priced_exchange (Ok fallback_manager)) "ETHUSDT" 2
          subscribed_with_manager).2).2 = Some fallback_manager /\
  forall other, other <> "ETHUSDT" ->
    price_callbacks
      (stop_symbol_ticker_websocket "ETHUSDT"
         (start_symbol_ticker_websocket (priced_exchange (Ok fallback_manager)) "ETHUSDT" 2
            subscribed_with_manager).2).2 !! other
    = price_callbacks subscribed_with_manager !! other /\
    socket_connections
      (stop_symbol_ticker_websocket "ETHUSDT"
         (start_symbol_ticker_websocket (priced_exchange (Ok fallback_manager)) "ETHUSDT" 2
            subscribed_with_manager).2).2 !! other
    = socket_connections subscribed_with_manager !! other.
Proof.
  apply (unsubscribe_after_subscribe (priced_exchange (Ok fallback_manager)) "ETHUSDT" 2
           subscribed_with_manager fallback_manager).
  reflexivity.
Defined.

(** ** The cache-aware price definition: stale cache and fallbacks *)

(** In the cache-aware earlier definition, an API error of any code but
    INVALID_SYMBOL is answered from the cache when the symbol has an entry,
    however old: the cached price is returned after the one failed request,
    without a sleep, and the cache is left as it was. *)
Theorem cached_price_on_api_error X pair use_cache st cache_time cached code :
  ticker_cache st !! pair = Some (cache_time, cached) ->
  FirstDef.fresh_cached pair use_cache st = None ->
  client_get_symbol_ticker X (requests st) pair = Raise (BinanceAPIException code) ->
  code <> INVALID_SYMBOL ->
  FirstDef.get_symbol_price X pair use_cache st
  = (Ok cached,
     with_world (S (requests st)) (now st) (slept st) (draws st) (delivered st) st).
Proof.
  intros Hcache Hstale Hfail Hcode. unfold FirstDef.get_symbol_price. rewrite Hstale.
  unfold try_except at 1. unfold bind at 1. unfold request at 1. rewrite Hfail.
  rewrite decide_False by done.
  unfold FirstDef.cached_or.
  destruct (decide (code = RATE_LIMITED)); [simpl; by rewrite Hcache|].
  destruct (decide (code = IP_BANNED)); simpl; by rewrite Hcache.
Qed.

Lemma cached_price_on_api_error_witness :
  FirstDef.get_symbol_price (limited_then 1 7) "BTCUSDT" true stale_cache_state
  = (Ok 48000%Q,
     with_world (S (requests stale_cache_state)) (now stale_cache_state)
       (slept stale_cache_state) (draws stale_cache_state)
       (delivered stale_cache_state) stale_cache_state).
Proof.
  apply (cached_price_on_api_error (limited_then 1 7) "BTCUSDT" true stale_cache_state
           0 48000 RATE_LIMITED); [reflexivity|reflexivity|reflexivity|discriminate].
Defined.

Lemma try_fallbacks_request pair (endpoint : nat -> string -> res Q) rest e st :
  FirstDef.try_fallbacks pair (request (fun n => endpoint n pair) :: rest) e st
  = match endpoint (requests st) pair with
    | Ok p =>
        (Ok p,
         with_ticker_cache (<[pair := (now st, p)]> (ticker_cache st))
           (with_world (S (requests st)) (now st) (slept st) (draws st) (delivered st) st))
    | Raise _ =>
        FirstDef.try_fallbacks pair rest e
          (with_world (S (requests st)) (now st) (slept st) (draws st) (delivered st) st)
    end.
Proof.
  simpl. unfold try_except, bind, request, cache_price, modify, ret.
  by destruct (endpoint (requests st) pair).
Qed.

Lemma try_fallbacks_all_fail pair e (endpoints : list (nat -> string -> res Q)) :
  forall st,
    (forall i endpoint, endpoints !! i = Some endpoint ->
       exists e', endpoint (requests st + i)%nat pair = Raise e') ->
    let run := FirstDef.try_fallbacks pair
                 (map (fun endpoint => request (fun n => endpoint n pair)) endpoints) e st in
    run.1 = Raise e /\
    ticker_cache run.2 = ticker_cache st /\
    requests run.2 = (requests st + length endpoints)%nat.
Proof.
  induction endpoints as [|endpoint endpoints IH]; intros st Hall.
  - simpl. repeat split. lia.
  - cbv zeta. rewrite map_cons, try_fallbacks_request.
    destruct (Hall O endpoint eq_refl) as [e' He']. rewrite Nat.add_0_r in He'.
    rewrite He'.
    set (st1 := with_world _ _ _ _ _ st).
    destruct (IH st1) as (Hres & Hcache & Hreq).
    { intros i ep Hi. simpl.
      replace (S (requests st + i)) with (requests st + S i)%nat by lia.
      by apply Hall. }
    cbv zeta in Hres, Hcache, Hreq. rewrite Hres, Hcache, Hreq.
    repeat split. simpl. lia.
Qed.

Lemma try_fallbacks_first_answer pair e (endpoints : list (nat -> string -> res Q)) :
  forall k st endpoint p,
    (forall i endpoint', (i < k)%nat -> endpoints !! i = Some endpoint' ->
       exists e', endpoint' (requests st + i)%nat pair = Raise e') ->
    endpoints !! k = Some endpoint ->
    endpoint (requests st + k)%nat pair = Ok p ->
    let run := FirstDef.try_fallbacks pair
                 (map (fun endpoint => request (fun n => endpoint n pair)) endpoints) e st in
    run.1 = Ok p /\
    ticker_cache run.2 !! pair = Some (now st, p) /\
    requests run.2 = (requests st + k + 1)%nat.
Proof.
  induction endpoints as [|first endpoints IH]; intros k st endpoint p Hfail Hk Hanswer.
  - done.
  - cbv zeta. rewrite map_cons, try_fallbacks_request.
    destruct k as [|k].
    + simpl in Hk. inversion Hk; subst first. rewrite Nat.add_0_r in Hanswer.
      rewrite Hanswer. simpl. repeat split; [by rewrite lookup_insert_eq|lia].
    + destruct (Hfail O first ltac:(lia) eq_refl) as [e' He'].
      rewrite Nat.add_0_r in He'. rewrite He'.
      set (st1 := with_world _ _ _ _ _ st).
      destruct (IH k st1 endpoint p) as (Hres & Hcache & Hreq).
      { intros i ep Hi Hep. simpl.
        replace (S (requests st + i)) with (requests st + S i)%nat by lia.
        apply Hfail; [lia|done]. }
      { done. }
      { simpl. by replace (S (requests st + k)) with (requests st + S k)%nat by lia. }
      cbv zeta in Hres, Hcache, Hreq. rewrite Hres, Hcache, Hreq.
      repeat split. simpl. lia.
Qed.

(** In the cache-aware earlier definition, for a symbol the ticker endpoint
    does not know and that has no mapping, the alternative endpoints are
    tried in their fixed order, one request each: the first one to answer
    gives the price, which is cached under the symbol, and when all five fail
    the original invalid-symbol error is raised and the cache is left as it
    was. *)
Theorem fallbacks_first_answer_wins X pair use_cache st :
  FirstDef.fresh_cached pair use_cache st = None ->
  client_get_symbol_ticker X (requests st) pair
  = Raise (BinanceAPIException INVALID_SYMBOL) ->
  get_mapped_symbol st pair = pair ->
  let run := FirstDef.get_symbol_price X pair use_cache st in
  (forall k endpoint p,
     (forall i endpoint', (i < k)%nat -> fallback_endpoints X !! i = Some endpoint' ->
        exists e, endpoint' (S (requests st) + i)%nat pair = Raise e) ->
     fallback_endpoints X !! k = Some endpoint ->
     endpoint (S (requests st) + k)%nat pair = Ok p ->
     run.1 = Ok p /\
     ticker_cache run.2 !! pair = Some (now st, p) /\
     requests run.2 = (requests st + k + 2)%nat) /\
  ((forall i endpoint, fallback_endpoints X !! i = Some endpoint ->
      exists e, endpoint (S (requests st) + i)%nat pair = Raise e) ->
   run.1 = Raise (BinanceAPIException INVALID_SYMBOL) /\
   ticker_cache run.2 = ticker_cache st /\
   requests run.2 = (requests st + 6)%nat).
Proof.
  intros Hstale Hinvalid Hmapped run.
  set (st1 := with_world (S (requests st)) (now st) (slept st) (draws st)
                (delivered st) st).
  assert (Hrun : run = FirstDef.try_fallbacks pair
                         (map (fun endpoint => request (fun n => endpoint n pair))
                            (fallback_endpoints X))
                         (BinanceAPIException INVALID_SYMBOL) st1).
  { subst run. unfold FirstDef.get_symbol_price. rewrite Hstale.
    unfold try_except at 1. unfold bind at 1. unfold request at 1. rewrite Hinvalid.
    rewrite decide_True by done. unfold bind at 1. unfold gets at 1.
    change (get_mapped_symbol (with_world _ _ _ _ _ st) pair)
      with (get_mapped_symbol st pair).
    rewrite Hmapped. by rewrite decide_True. }
  rewrite Hrun. split.
  - intros k endpoint p Hfail Hk Hanswer.
    destruct (try_fallbacks_first_answer pair (BinanceAPIException INVALID_SYMBOL)
                (fallback_endpoints X) k st1 endpoint p Hfail Hk Hanswer)
      as (Hres & Hcache & Hreq).
    cbv zeta in Hres, Hcache, Hreq. rewrite Hres, Hcache, Hreq.
    repeat split. simpl. lia.
  - intros Hall.
    destruct (try_fallbacks_all_fail pair (BinanceAPIException INVALID_SYMBOL)
                (fallback_endpoints X) st1 Hall) as (Hres & Hcache & Hreq).
    cbv zeta in Hres, Hcache, Hreq. rewrite Hres, Hcache, Hreq.
    repeat split. simpl. lia.
Qed.

Lemma fallbacks_first_answer_wins_witness :
  (FirstDef.get_symbol_price average_price_only "XYZUSD" true initial_state).1
  = Ok (7 # 2)%Q /\
  ticker_cache
    (FirstDef.get_symbol_price average_price_only "XYZUSD" true initial_state).2
    !! "XYZUSD" = Some (now initial_state, (7 # 2)%Q) /\
  requests
    (FirstDef.get_symbol_price average_price_only "XYZUSD" true initial_state).2
  = (requests initial_state + 2 + 2)%nat.
Proof.
  apply (proj1 (fallbacks_first_answer_wins average_price_only "XYZUSD" true
                  initial_state eq_refl eq_refl eq_refl)
           2%nat (client_get_avg_price average_price_only) (7 # 2)%Q).
  - intros i endpoint Hi Hendpoint.
    destruct i as [|[|i]]; [| |lia]; inversion Hendpoint; eexists; reflexivity.
  - reflexivity.
  - reflexivity.
Defined.

(** ** The consolidated metrics once the history is there *)

(** Once the consolidated history is obtained, no failure of a price query
    fails the consolidated metrics: the price is the direct one of the asset
    in the base currency; failing that, the product of the asset's BTC price
    and the BTC price in the base currency; failing that, the normalized
    price of the first order of the history, or 0 without orders.  The
    holdings are the BUY quantity minus the SELL quantity, the total cost is
    netted the same way from the normalized totals, and value and profit
    follow from holdings, price and cost. *)
Theorem consolidated_metrics_after_history X asset base_currency st history st1 :
  get_consolidated_order_history X asset base_currency st = (Ok history, st1) ->
  let m := (calculate_consolidated_position_metrics X asset base_currency st).1 in
  let direct :=
    client_get_symbol_ticker X (requests st1)
      (get_mapped_symbol st1 (asset +:+ base_currency)) in
  let btc :=
    client_get_symbol_ticker X (S (requests st1))
      (get_mapped_symbol st1 ("BTC" +:+ base_currency)) in
  let asset_btc :=
    client_get_symbol_ticker X (S (S (requests st1)))
      (get_mapped_symbol st1 (asset +:+ "BTC")) in
  let last_known :=
    match history with
    | first :: _ => default 0%Q (normalizedPrice first)
    | [] => 0%Q
    end in
  let cost := fun o => default (cummulativeQuoteQty o) (normalizedTotal o) in
  let buys := filter (fun o => is_buy o = true) history in
  let sells := filter (fun o => is_sell o = true) history in
  cm_error m = None /\
  cm_order_count m = length history /\
  cm_current_price m
  = match direct, btc, asset_btc with
    | Ok p, _, _ => p
    | Raise _, Ok b, Ok a => (a * b)%Q
    | Raise _, _, _ => last_known
    end /\
  (cm_holdings m == Qsum (map executedQty buys) - Qsum (map executedQty sells))%Q /\
  (cm_total_cost m == Qsum (map cost buys) - Qsum (map cost sells))%Q /\
  cm_current_value m = (cm_holdings m * cm_current_price m)%Q /\
  cm_pnl_amount m = (cm_current_value m - cm_total_cost m)%Q.
Proof.
  intros Hhistory m direct btc asset_btc last_known cost buys sells.
  remember (calculate_consolidated_position_metrics X asset base_currency st) as run
    eqn:Hrun.
  unfold calculate_consolidated_position_metrics, consolidated_metrics_body in Hrun.
  rewrite (bind_ok _ _ _ _ _ Hhistory) in Hrun.
  unfold bind at 1 in Hrun. unfold gets at 1 in Hrun.
  match type of Hrun with
  | context [accumulate ?fee ?cost_of history] =>
      destruct (accumulate_acc fee cost_of history (0%Q, 0%Q, 0%Q)) as [Hcost Hqty];
      cbv zeta in Hcost, Hqty; fold (accumulate fee cost_of history) in Hcost, Hqty;
      destruct (accumulate fee cost_of history) as [[total_cost total_qty] total_fees]
  end.
  simpl in Hcost, Hqty. rewrite Qplus_0_l in Hcost, Hqty.
  fold buys sells in Hcost, Hqty.
  unfold bind at 1 in Hrun. unfold try_except at 1 in Hrun.
  rewrite get_symbol_price_is_request in Hrun. fold direct in Hrun.
  destruct direct as [p|e]; [by subst run m|].
  unfold try_except at 1 in Hrun. unfold bind at 1 in Hrun.
  rewrite get_symbol_price_is_request in Hrun.
  change (client_get_symbol_ticker X _ _) with btc in Hrun.
  destruct btc as [b|e']; [|by subst run m].
  unfold bind at 1 in Hrun. rewrite get_symbol_price_is_request in Hrun.
  change (client_get_symbol_ticker X _ _) with asset_btc in Hrun.
  destruct asset_btc as [a|e']; by subst run m.
Qed.

Lemma consolidated_metrics_after_history_witness :
  cm_error (calculate_consolidated_position_metrics (probe_fails_with connection_error)
              "XYZ" "USDT" xyz_manual_state).1 = None /\
  cm_order_count (calculate_consolidated_position_metrics
                    (probe_fails_with connection_error) "XYZ" "USDT" xyz_manual_state).1
  = 1%nat.
Proof.
  destruct (consolidated_metrics_after_history (probe_fails_with connection_error)
              "XYZ" "USDT" xyz_manual_state
              (sort_by_time
                 [with_normalized (price xyz_fill) (cummulativeQuoteQty xyz_fill) "USDT"
                    (with_pair_info "XYZ" "USDT" "XYZUSDT" xyz_fill)])
              (get_consolidated_order_history (probe_fails_with connection_error)
                 "XYZ" "USDT" xyz_manual_state).2)
    as (Herror & Hcount & _).
  - vm_compute. reflexivity.
  - split; [exact Herror|exact Hcount].
Defined.
